(** * README generator: the request pipeline of [generate-readme]

    A shallow embedding of the server route that turns a GitHub URL into a
    README document ([parseRepoUrl], [fetchJson], [fetchRepoMetadata],
    [buildReadme], [callGemini], [generateReadmeRoute]) together with the
    properties the specification states about it.  The client's check of
    the URL ([validateUrl]), the environment check ([handleEnvCheck]) and
    the serverless function ([handler]) are embedded after it.

    Conventions of the embedding.
    - A JavaScript string is a [string]: a sequence of code units below 256.
    - Values whose TypeScript type is erased at run time and that the code
      inspects itself (the request body, the generative service's reply)
      are dynamic [JsVal]s.  The replies of the hosting provider are read at
      the types [fetchJson<T>] is instantiated with, and the records the
      code builds ([RepoMetadata]) carry their declared types.
    - [await]ed network calls are steps of the monad [Net]: they read an
      immutable [World] (what the network answers) and append to a trace of
      the requests issued.  A rejected promise or a [throw] is [Thrown]. *)

From Stdlib Require Import String Ascii List Bool NArith PeanoNat Lia DecimalString.
From Stdlib Require Import Floats.PrimFloat.
Import ListNotations.
Local Open Scope string_scope.
Local Open Scope bool_scope.
Set Warnings "-register-all".

(** ** JavaScript strings *)

Module Js.

(** [WhiteSpace] and [LineTerminator] code units below 256: TAB, LF, VT, FF,
    CR, SP and NBSP.  These are the characters [String.prototype.trim] strips
    and [\s] matches. *)
Definition isWhiteSpace (c : ascii) : bool :=
  let n := N_of_ascii c in
  ((9 <=? n) && (n <=? 13) || (n =? 32) || (n =? 160))%N.

Fixpoint trimStart (s : string) : string :=
  match s with
  | String c s' => if isWhiteSpace c then trimStart s' else s
  | EmptyString => EmptyString
  end.

Fixpoint trimEnd (s : string) : string :=
  match s with
  | String c s' =>
      match trimEnd s' with
      | EmptyString => if isWhiteSpace c then EmptyString else String c EmptyString
      | t => String c t
      end
  | EmptyString => EmptyString
  end.

(** [s.trim()] *)
Definition trim (s : string) : string := trimEnd (trimStart s).

(** [s.includes(sub)] *)
Fixpoint includes (sub s : string) : bool :=
  String.prefix sub s ||
  match s with
  | String _ s' => includes sub s'
  | EmptyString => false
  end.

(** [l.join(sep)] on an array of strings *)
Definition join (sep : string) (l : list string) : string := String.concat sep l.

(** [s.slice(0, n)] *)
Definition slice0 (n : nat) (s : string) : string := String.substring 0 n s.

(** [s.split(/,\s*/)]: the separator is a comma together with all the white
    space that follows it; the pattern never matches the empty string, so the
    result always has at least one piece.  [afterComma] is set while the
    white space of a separator is being consumed. *)
Fixpoint splitCommaFrom (afterComma : bool) (s : string) : list string :=
  match s with
  | EmptyString => [EmptyString]
  | String c s' =>
      if afterComma && isWhiteSpace c then splitCommaFrom true s'
      else if Ascii.eqb c "," then EmptyString :: splitCommaFrom true s'
      else
        match splitCommaFrom false s' with
        | piece :: rest => String c piece :: rest
        | [] => [String c EmptyString]
        end
  end.

Definition splitComma (s : string) : list string := splitCommaFrom false s.

(** [`${n}`] for a non-negative integer *)
Definition ofNumber (n : N) : string := NilEmpty.string_of_uint (N.to_uint n).

Definition isEmpty (s : string) : bool :=
  match s with EmptyString => true | _ => false end.

End Js.

(** ** Dynamic values

    What [JSON.parse] and [res.json()] produce, plus [undefined].  An object
    is the list of its own properties, in enumeration order, with distinct
    keys. *)

Inductive JsVal : Type :=
| JUndefined
| JNull
| JBool (b : bool)
| JNum (x : float)
| JStr (s : string)
| JArr (items : list JsVal)
| JObj (props : list (string * JsVal)).

Inductive JsError : Type :=
| Error (message : string)
| TypeError (message : string)
| SyntaxError (message : string).

(** [e.message] *)
Definition message (e : JsError) : string :=
  match e with Error m | TypeError m | SyntaxError m => m end.

(** The result of evaluating an expression or a block that may throw. *)
Inductive outcome (A : Type) : Type :=
| Returned (a : A)
| Thrown (e : JsError).
Arguments Returned {A} a.
Arguments Thrown {A} e.

Definition isNullish (v : JsVal) : bool :=
  match v with JUndefined | JNull => true | _ => false end.

(** [a ?? b] *)
Definition nullish (a b : JsVal) : JsVal := if isNullish a then b else a.

(** [ToBoolean]: what [!v], [if (v)] and [Boolean(v)] test. *)
Definition truthy (v : JsVal) : bool :=
  match v with
  | JUndefined | JNull => false
  | JBool b => b
  | JNum x => negb (PrimFloat.eqb x 0%float) && PrimFloat.eqb x x
  | JStr s => negb (Js.isEmpty s)
  | JArr _ | JObj _ => true
  end.

Fixpoint lookup (key : string) (props : list (string * JsVal)) : JsVal :=
  match props with
  | (k, v) :: rest => if String.eqb k key then v else lookup key rest
  | [] => JUndefined
  end.

(** [v?.key] for a key that no prototype defines (the keys the program
    reads: [repoUrl], [candidates], [content], [parts], [text],
    [description], [features], [installation], [usage]): only an object can
    have it. *)
Definition optGet (key : string) (v : JsVal) : JsVal :=
  match v with
  | JObj props => lookup key props
  | _ => JUndefined
  end.

(** [v.key] for such a key: as [v?.key], except that reading a property of
    [null] or [undefined] throws. *)
Definition get (key : string) (v : JsVal) : outcome JsVal :=
  if isNullish v
  then Thrown (TypeError ("Cannot read properties of null or undefined (reading '" ++ key ++ "')"))
  else Returned (optGet key v).

(** [v?.[0]]: the first element of an array, the first code unit of a
    string, the property ["0"] of an object. *)
Definition optFirst (v : JsVal) : JsVal :=
  match v with
  | JArr (x :: _) => x
  | JStr (String c _) => JStr (String c EmptyString)
  | JObj props => lookup "0" props
  | _ => JUndefined
  end.

(** [v.trim()]: only a string has the method; on any other value, [null]
    and [undefined] included, the call throws a [TypeError]. *)
Definition callTrim (v : JsVal) : outcome string :=
  match v with
  | JStr s => Returned (Js.trim s)
  | _ => Thrown (TypeError "trim is not a function")
  end.

(** ** The types of [shared/api.ts] *)

Record RepoMetadata : Type := {
  owner : string;
  repo : string;
  name : string;
  description : option string;
  languages : list string;
  license : option string;
  defaultBranch : string;
  homepage : option string;
  topics : list string;
  tree : list string
}.

(** [GeneratedSections]: every field is optional ([JUndefined] when absent).
    The declared field types ([string], [string[]]) are not checked at run
    time, so the fields hold whatever the reply contained. *)
Record GeneratedSections : Type := {
  gen_description : JsVal;
  gen_features : JsVal;
  gen_usage : JsVal;
  gen_installation : JsVal
}.

(** [{}] *)
Definition noSections : GeneratedSections :=
  {| gen_description := JUndefined; gen_features := JUndefined;
     gen_usage := JUndefined; gen_installation := JUndefined |}.

(** A [GeneratedSections] value that has its declared type. *)
Record TypedSections : Type := {
  t_description : option string;
  t_features : option (list string);
  t_usage : option string;
  t_installation : option string
}.

Definition ofOption (o : option string) : JsVal :=
  match o with Some s => JStr s | None => JUndefined end.

Definition ofTyped (t : TypedSections) : GeneratedSections :=
  {| gen_description := ofOption (t_description t);
     gen_features :=
       match t_features t with
       | Some l => JArr (map JStr l)
       | None => JUndefined
       end;
     gen_usage := ofOption (t_usage t);
     gen_installation := ofOption (t_installation t) |}.

(** [Partial<Record<keyof GeneratedSections, boolean>>]: a key is either
    absent ([false] here) or [true]; the code never stores [false]. *)
Record FilledFlags : Type := {
  filled_description : bool;
  filled_features : bool;
  filled_usage : bool;
  filled_installation : bool
}.

Record ApiError : Type := { err_code : string; err_message : string }.

Record GenerateReadmeResponse : Type := {
  readme : string;
  fileName : string;
  metadata : RepoMetadata;
  filledWithGemini : FilledFlags;
  errors : option (list ApiError)
}.

Record ErrorResponse : Type := { error : string; code : string }.

(** ** [parseRepoUrl]

    [GITHUB_REPO_REGEX] is
    [/^https:\/\/github\.com\/([A-Za-z0-9_.-]+)\/([A-Za-z0-9_.-]+)(?:\/?|#.?)?$/i].
    The two groups are runs of [isNameChar]; no such character is a slash or
    a hash, so each greedy run is the longest one and the match, when there
    is one, is unique. *)

(** [A-Z] to [a-z] on one code unit: with the [i] flag and no [u] flag only
    ASCII letters are identified with each other. *)
Definition toLowerAscii (c : ascii) : ascii :=
  let n := N_of_ascii c in
  if ((65 <=? n) && (n <=? 90))%N then ascii_of_N (n + 32) else c.

(** The class [[A-Za-z0-9_.-]] (unchanged by the [i] flag). *)
Definition isNameChar (c : ascii) : bool :=
  let n := N_of_ascii c in
  ((65 <=? n) && (n <=? 90) || (97 <=? n) && (n <=? 122) ||
   (48 <=? n) && (n <=? 57) || (n =? 95) || (n =? 46) || (n =? 45))%N.

(** [.]: any code unit except a line terminator. *)
Definition isLineTerminator (c : ascii) : bool :=
  let n := N_of_ascii c in ((n =? 10) || (n =? 13))%N.

(** Matches the literal [lit] (given in lower case) at the start of [s],
    ignoring case, and returns the rest. *)
Fixpoint stripPrefixCI (lit s : string) : option string :=
  match lit, s with
  | EmptyString, _ => Some s
  | String a lit', String c s' =>
      if Ascii.eqb a (toLowerAscii c) then stripPrefixCI lit' s' else None
  | String _ _, EmptyString => None
  end.

(** The longest prefix of name characters, and what follows it. *)
Fixpoint spanName (s : string) : string * string :=
  match s with
  | String c s' =>
      if isNameChar c
      then let (run, rest) := spanName s' in (String c run, rest)
      else (EmptyString, s)
  | EmptyString => (EmptyString, EmptyString)
  end.

(** [(?:\/?|#.?)?$]: nothing, one slash, or a hash with at most one more
    character after it. *)
Definition matchesTail (s : string) : bool :=
  match s with
  | EmptyString => true
  | String c EmptyString => Ascii.eqb c "/" || Ascii.eqb c "#"
  | String c (String d EmptyString) => Ascii.eqb c "#" && negb (isLineTerminator d)
  | _ => false
  end.

Definition parseRepoUrl (url : string) : option (string * string) :=
  match stripPrefixCI "https://github.com/" url with
  | None => None
  | Some afterHost =>
      match spanName afterHost with
      | (EmptyString, _) => None
      | (m1, String c afterSlash) =>
          if Ascii.eqb c "/" then
            match spanName afterSlash with
            | (EmptyString, _) => None
            | (m2, rest) => if matchesTail rest then Some (m1, m2) else None
            end
          else None
      | (_, EmptyString) => None
      end
  end.

(** ** The network

    [fetch] is the only effect of the program.  A [World] fixes what every
    request is answered with; the trace records the requests issued, in
    order.  Each endpoint is given at the type its caller reads the reply at
    ([fetchJson<T>]). *)

(** [encodeURIComponent] on code units below 256: unreserved characters are
    kept, every other one is written as the percent-escaped bytes of its
    UTF-8 encoding. *)
Definition hexDigit (n : N) : ascii :=
  if (n <? 10)%N then ascii_of_N (48 + n) else ascii_of_N (55 + n).

Definition percentByte (b : N) : string :=
  String "%" (String (hexDigit (b / 16)) (String (hexDigit (b mod 16)) EmptyString)).

Definition isUriUnreserved (c : ascii) : bool :=
  let n := N_of_ascii c in
  ((65 <=? n) && (n <=? 90) || (97 <=? n) && (n <=? 122) ||
   (48 <=? n) && (n <=? 57))%N ||
  Js.includes (String c EmptyString) "-_.!~*'()".

Fixpoint encodeURIComponent (s : string) : string :=
  match s with
  | EmptyString => EmptyString
  | String c s' =>
      let n := N_of_ascii c in
      (if isUriUnreserved c then String c EmptyString
       else if (n <? 128)%N then percentByte n
       else percentByte (192 + n / 64) ++ percentByte (128 + n mod 64))
      ++ encodeURIComponent s'
  end.

Definition Headers : Type := list (string * string).

(** The part of the repository reply [fetchRepoMetadata] reads; [None] is
    [null] or a missing key. *)
Record LicenseData : Type := {
  spdx_id : option string;
  license_name : option string
}.

Record RepoData : Type := {
  default_branch : string;
  data_name : option string;
  data_description : option string;
  data_license : option LicenseData;
  data_homepage : option string;
  data_topics : option (list string)
}.

(** [Record<string, number>], keys in enumeration order; [None] is [null]. *)
Definition LanguagesData : Type := option (list (string * N)).

Record TreeNode : Type := { path : string; type : string }.

Record TreeData : Type := { tree_nodes : option (list TreeNode) }.

(** The metadata [callGemini] serialises into its prompt. *)
Record PromptMetadata : Type := {
  prompt_name : string;
  prompt_description : option string;
  prompt_languages : list string;
  prompt_license : option string;
  prompt_defaultBranch : string;
  prompt_homepage : option string;
  prompt_topics : list string;
  treePreview : list string
}.

Record GeminiBody : Type := {
  instructions : list string;
  repositoryMetadata : PromptMetadata
}.

Inductive Request : Type :=
| Get (url : string) (headers : Headers)
| Post (url : string) (headers : Headers) (body : GeminiBody).

(** A [Response]: [json] is what [res.json()] resolves to, or the error it
    rejects with when the body is not JSON. *)
Record Response (T : Type) : Type := {
  status : N;
  statusText : string;
  text : string;
  json : outcome T
}.
Arguments status {T} r.
Arguments statusText {T} r.
Arguments text {T} r.
Arguments json {T} r.

(** [res.ok] *)
Definition ok {T : Type} (r : Response T) : bool :=
  ((200 <=? status r) && (status r <=? 299))%N.

(** What lies outside the program: the answer to every request ([Thrown]
    when [fetch] itself rejects), and the platform's [JSON.parse]. *)
Record World : Type := {
  repoEndpoint : string -> Headers -> outcome (Response RepoData);
  languagesEndpoint : string -> Headers -> outcome (Response LanguagesData);
  treeEndpoint : string -> Headers -> outcome (Response TreeData);
  geminiEndpoint : string -> Headers -> GeminiBody -> outcome (Response JsVal);
  JSON_parse : JsVal -> outcome JsVal
}.

Definition Trace : Type := list Request.

Definition Net (A : Type) : Type := World -> Trace -> outcome A * Trace.

Definition ret {A : Type} (a : A) : Net A := fun _ tr => (Returned a, tr).

Definition throw {A : Type} (e : JsError) : Net A := fun _ tr => (Thrown e, tr).

Definition bind {A B : Type} (m : Net A) (k : A -> Net B) : Net B :=
  fun w tr =>
    match m w tr with
    | (Returned a, tr') => k a w tr'
    | (Thrown e, tr') => (Thrown e, tr')
    end.

(** [try { body } catch (e) { handler }] *)
Definition tryCatch {A : Type} (body : Net A) (handler : JsError -> Net A) : Net A :=
  fun w tr =>
    match body w tr with
    | (Returned a, tr') => (Returned a, tr')
    | (Thrown e, tr') => handler e w tr'
    end.

Definition lift {A : Type} (o : outcome A) : Net A := fun _ tr => (o, tr).

Definition ask : Net World := fun w tr => (Returned w, tr).

Notation "x <- m ;; k" := (bind m (fun x => k))
  (at level 61, m at next level, right associativity).

(** [await fetch(...)] against one of the endpoints. *)
Definition fetch {T : Type} (endpoint : World -> outcome (Response T))
    (request : Request) : Net (Response T) :=
  fun w tr => (endpoint w, (tr ++ [request])%list).

(** ** [fetchJson] *)
Definition fetchJson {T : Type}
    (endpoint : World -> string -> Headers -> outcome (Response T))
    (input : string) (headers : Headers) : Net T :=
  res <- fetch (fun w => endpoint w input headers) (Get input headers) ;;
  if negb (ok res) then
    throw (Error ("HTTP " ++ Js.ofNumber (status res) ++ " " ++ statusText res
                  ++ ": " ++ text res))
  else lift (json res).

(** ** [fetchRepoMetadata] *)

(** [a ?? b] and [a || b] on optional strings *)
Definition orElse {A : Type} (a b : option A) : option A :=
  match a with Some _ => a | None => b end.

Definition truthyString (o : option string) : bool :=
  match o with Some s => negb (Js.isEmpty s) | None => false end.

Definition githubHeaders (token : string) : Headers :=
  [ ("Accept", "application/vnd.github+json");
    ("Authorization", "Bearer " ++ token);
    ("X-GitHub-Api-Version", "2022-11-28") ].

(** Lines 78 to 98: the record built from the three replies. *)
Definition metadataOf (owner' repo' : string) (repoData : RepoData)
    (langsData : LanguagesData) (treeData : TreeData) : RepoMetadata :=
  let languages' :=
    map fst (match langsData with Some m => m | None => [] end) in
  let license' :=
    orElse (match data_license repoData with Some l => spdx_id l | None => None end)
           (match data_license repoData with Some l => license_name l | None => None end) in
  let tree' :=
    firstn 500
      (map path
         (filter (fun n => String.eqb (type n) "blob" || String.eqb (type n) "tree")
                 (match tree_nodes treeData with Some l => l | None => [] end))) in
  {| owner := owner';
     repo := repo';
     name := match data_name repoData with Some n => n | None => repo' end;
     description := data_description repoData;
     languages := languages';
     license := license';
     defaultBranch := default_branch repoData;
     homepage :=
       if truthyString (data_homepage repoData) then data_homepage repoData else None;
     topics := match data_topics repoData with Some l => l | None => [] end;
     tree := tree' |}.

Definition fetchRepoMetadata (owner' repo' token : string) : Net RepoMetadata :=
  let base := "https://api.github.com/repos/" ++ owner' ++ "/" ++ repo' in
  let headers := githubHeaders token in
  repoData <- fetchJson repoEndpoint base headers ;;
  langsData <- fetchJson languagesEndpoint (base ++ "/languages") headers ;;
  let defaultBranch' := default_branch repoData in
  treeData <- fetchJson treeEndpoint
      (base ++ "/git/trees/" ++ encodeURIComponent defaultBranch' ++ "?recursive=1")
      headers ;;
  ret (metadataOf owner' repo' repoData langsData treeData).

(** ** [buildReadme] *)

(** Sequencing of expressions that may throw. *)
Definition andThen {A B : Type} (o : outcome A) (k : A -> outcome B) : outcome B :=
  match o with
  | Returned a => k a
  | Thrown e => Thrown e
  end.

Notation "x <~ o ;; k" := (andThen o (fun x => k))
  (at level 61, o at next level, right associativity).

(** The line feed, and the fence marker of a code block. *)
Definition LF : string := String (ascii_of_N 10) EmptyString.
Definition fence : string := "```".
Definition notSpecified : string := "Not specified.".

(** [items.map((s) => s.trim())]: elements are visited in order and the
    first one that is not a string makes the call throw. *)
Fixpoint mapTrim (items : list JsVal) : outcome (list string) :=
  match items with
  | [] => Returned []
  | s :: rest =>
      t <~ callTrim s ;;
      ts <~ mapTrim rest ;;
      Returned (t :: ts)
  end.

(** [v.map(...)]: only an array has the method. *)
Definition asArray (v : JsVal) : outcome (list JsVal) :=
  match v with
  | JArr items => Returned items
  | _ => Thrown (TypeError "map is not a function")
  end.

Definition bullet (t : string) : string := "- " ++ t.

(** The array [parts] when [buildReadme] reaches its [return]. *)
Definition readmeParts (meta : RepoMetadata) (generated : GeneratedSections)
  : outcome (list string) :=
  let title :=
    if Js.isEmpty (name meta) then owner meta ++ "/" ++ repo meta else name meta in
  description' <~
    callTrim (nullish (gen_description generated)
                (nullish (ofOption (description meta)) (JStr notSpecified))) ;;
  featuresArr <~
    (items <~ asArray (nullish (gen_features generated) (JArr [])) ;;
     trimmed <~ mapTrim items ;;
     Returned (filter (fun s => negb (Js.isEmpty s)) trimmed)) ;;
  let features :=
    match featuresArr with [] => [notSpecified] | _ => featuresArr end in
  installation <~ callTrim (nullish (gen_installation generated) (JStr notSpecified)) ;;
  usage <~ callTrim (nullish (gen_usage generated) (JStr notSpecified)) ;;
  let techStack :=
    match languages meta with
    | [] => notSpecified
    | _ => Js.join ", " (languages meta)
    end in
  let structureLines :=
    match tree meta with [] => [notSpecified] | _ => tree meta end in
  let licenseText :=
    match license meta with Some l => l | None => notSpecified end in
  Returned
    (List.app
     [ "# " ++ title;
       "";
       "## Description";
       description';
       "";
       "## Features" ]
     (List.app (map bullet features)
     [ "";
       "## Installation Guide";
       (if Js.includes fence installation then installation
        else "```bash" ++ LF ++ installation ++ LF ++ fence);
       "";
       "## Usage";
       (if Js.includes fence usage then usage
        else if negb (String.eqb usage notSpecified)
             then fence ++ LF ++ usage ++ LF ++ fence
             else usage);
       "";
       "## Tech Stack";
       Js.join LF (map bullet (Js.splitComma techStack));
       "";
       "## Project Structure";
       (match structureLines with
        | first :: _ =>
            if negb (String.eqb first notSpecified)
            then fence ++ LF ++ Js.join LF structureLines ++ LF ++ fence
            else notSpecified
        | [] => notSpecified
        end);
       "";
       "## License Information";
       licenseText;
       "" ])).

Definition buildReadme (meta : RepoMetadata) (generated : GeneratedSections)
    (filled : FilledFlags) : outcome string :=
  parts <~ readmeParts meta generated ;;
  Returned (Js.join LF parts).

(** ** [callGemini] *)

Definition quoted (s : string) : string :=
  String (ascii_of_N 34) s ++ String (ascii_of_N 34) EmptyString.

(** The lines of [prompt] before the serialised metadata. *)
Definition promptInstructions : list string :=
  [ "You are helping to create a high-quality README.md for a GitHub repository using the template sections:";
    "Description, Features, Installation Guide, Usage.";
    "Given the repository context below, output a concise JSON object with keys:";
    "{" ++ quoted "description" ++ ": string, " ++ quoted "features" ++ ": string[], "
        ++ quoted "installation" ++ ": string, " ++ quoted "usage" ++ ": string}.";
    "Rules:";
    "- Keep content factual based on provided metadata; avoid hallucinating specific commands that are unlikely.";
    "- Installation should be actionable; if unknown, provide generic steps based on common stacks.";
    "- Keep features as 4-8 bullet points, short and value-focused.";
    "- Usage can include minimal examples in code fences.";
    "- Do not include markdown headings in values.";
    "Repository metadata:" ].

Definition geminiUrl (apiKey : string) : string :=
  "https://generativelanguage.googleapis.com/v1beta/models/gemini-1.5-flash-latest:generateContent?key="
  ++ encodeURIComponent apiKey.

Definition geminiBody (meta : RepoMetadata) : GeminiBody :=
  {| instructions := promptInstructions;
     repositoryMetadata :=
       {| prompt_name := name meta;
          prompt_description := description meta;
          prompt_languages := languages meta;
          prompt_license := license meta;
          prompt_defaultBranch := defaultBranch meta;
          prompt_homepage := homepage meta;
          prompt_topics := topics meta;
          treePreview := firstn 120 (tree meta) |} |}.

(** [data?.candidates?.[0]?.content?.parts?.[0]?.text ?? ""] *)
Definition replyText (data : JsVal) : JsVal :=
  nullish
    (optGet "text" (optFirst (optGet "parts" (optGet "content"
       (optFirst (optGet "candidates" data))))))
    (JStr EmptyString).

Definition isArray (v : JsVal) : bool :=
  match v with JArr _ => true | _ => false end.

(** The body of the [try] block: [JSON.parse] and the four property reads. *)
Definition sectionsOfReply (parse : JsVal -> outcome JsVal) (text' : JsVal)
  : outcome GeneratedSections :=
  parsed <~ parse text' ;;
  description' <~ get "description" parsed ;;
  features' <~ get "features" parsed ;;
  installation' <~ get "installation" parsed ;;
  usage' <~ get "usage" parsed ;;
  Returned {| gen_description := description';
              gen_features := if isArray features' then features' else JUndefined;
              gen_usage := usage';
              gen_installation := installation' |}.

Definition callGemini (apiKey : string) (meta : RepoMetadata) : Net GeneratedSections :=
  let url := geminiUrl apiKey in
  let headers := [("Content-Type", "application/json")] in
  let body := geminiBody meta in
  res <- fetch (fun w => geminiEndpoint w url headers body) (Post url headers body) ;;
  if negb (ok res) then
    throw (Error ("Gemini API error " ++ Js.ofNumber (status res) ++ ": " ++ text res))
  else
    data <- lift (json res) ;;
    w <- ask ;;
    match sectionsOfReply (JSON_parse w) (replyText data) with
    | Returned out => ret out
    | Thrown _ => ret noSections
    end.

(** ** [generateReadmeRoute] *)

Record ProcessEnv : Type := {
  GITHUB_TOKEN : option string;
  GEMINI_API_KEY : option string
}.

Inductive ReplyBody : Type :=
| Failure (e : ErrorResponse)
| Success (payload : GenerateReadmeResponse).

(** [res.status(s).json(b)]; [res.json(b)] has status 200. *)
Record HttpReply : Type := { reply_status : N; reply_body : ReplyBody }.

Definition fail (st : N) (msg code' : string) : HttpReply :=
  {| reply_status := st; reply_body := Failure {| error := msg; code := code' |} |}.

(** The value of a string that is truthy. *)
Definition whenTruthy (o : option string) : option string :=
  if truthyString o then o else None.

(** [body?.repoUrl?.trim()] *)
Definition requestedUrl (body : JsVal) : outcome (option string) :=
  let v := optGet "repoUrl" body in
  if isNullish v then Returned None
  else s <~ callTrim v ;; Returned (Some s).

(** [!meta.description || meta.description.trim().length < 5] *)
Definition needDescription (meta : RepoMetadata) : bool :=
  match description meta with
  | Some d => Js.isEmpty d || Nat.ltb (String.length (Js.trim d)) 5
  | None => true
  end.

(** Lines 261 to 275: the call to the generative service, guarded by the key
    and by its own [try]/[catch]. *)
Definition narrativeStage (geminiKey : option string) (meta : RepoMetadata)
    (errors0 : list ApiError) : Net (GeneratedSections * list ApiError) :=
  match whenTruthy geminiKey with
  | Some key =>
      tryCatch
        (g <- callGemini key meta ;;
         ret (g, errors0))
        (fun e =>
           ret (noSections,
                (errors0 ++
                 [ {| err_code := "GEMINI_API_ERROR";
                      err_message :=
                        Js.slice0 500 ("Gemini API error: " ++ message e) |} ])%list))
  | None => ret (noSections, errors0)
  end.

(** Lines 277 to 279. *)
Definition adoptDescription (meta : RepoMetadata) (generated : GeneratedSections)
  : GeneratedSections :=
  if negb (truthy (gen_description generated)) && needDescription meta
     && truthyString (description meta)
  then {| gen_description := ofOption (description meta);
          gen_features := gen_features generated;
          gen_usage := gen_usage generated;
          gen_installation := gen_installation generated |}
  else generated.

(** Lines 282 to 284. *)
Definition markFilled (generated : GeneratedSections) : FilledFlags :=
  {| filled_description := truthy (gen_description generated);
     filled_features := truthy (gen_features generated);
     filled_usage := truthy (gen_usage generated);
     filled_installation := truthy (gen_installation generated) |}.

(** Lines 277 to 297: the description taken over from the metadata, the
    flags, the document and the payload. *)
Definition assembleReply (meta : RepoMetadata) (generated0 : GeneratedSections)
    (errors1 : list ApiError) : outcome HttpReply :=
  let generated := adoptDescription meta generated0 in
  let filled := markFilled generated in
  readme' <~ buildReadme meta generated filled ;;
  Returned
    {| reply_status := 200;
       reply_body :=
         Success {| readme := readme';
                    fileName := repo meta ++ "-README.md";
                    metadata := meta;
                    filledWithGemini := filled;
                    errors := match errors1 with [] => None | _ => Some errors1 end |} |}.

(** Lines 253 to 297: fetch the metadata, ask for the narrative, assemble. *)
Definition produceReadme (owner' repo' githubToken : string)
    (geminiKey : option string) (errors0 : list ApiError) : Net HttpReply :=
  fetched <-
    tryCatch
      (meta <- fetchRepoMetadata owner' repo' githubToken ;;
       ret (inr meta))
      (fun e =>
         ret (inl (fail 502 (Js.slice0 500 ("GitHub API error: " ++ message e))
                     "GITHUB_API_ERROR"))) ;;
  match fetched with
  | inl reply => ret reply
  | inr meta =>
      narrated <- narrativeStage geminiKey meta errors0 ;;
      lift (assembleReply meta (fst narrated) (snd narrated))
  end.

(** The warning pushed at line 250 when no generative-service key is set. *)
Definition initialErrors (geminiKey : option string) : list ApiError :=
  if negb (truthyString geminiKey) then
    [ {| err_code := "MISSING_GEMINI_API_KEY";
         err_message :=
           "Server missing GEMINI_API_KEY; generated content may be limited." |} ]
  else [].

(** The body of the outer [try]. *)
Definition handleRequest (body : JsVal) (env : ProcessEnv) : Net HttpReply :=
  repoUrl <- lift (requestedUrl body) ;;
  match whenTruthy repoUrl with
  | None => ret (fail 400 "Repository URL is required." "MISSING_REPO_URL")
  | Some url =>
  match parseRepoUrl url with
  | None =>
      ret (fail 400
             "Invalid GitHub repository URL. Expected https://github.com/<owner>/<repo>"
             "INVALID_REPO_URL")
  | Some (owner', repo') =>
  match whenTruthy (GITHUB_TOKEN env) with
  | None =>
      ret (fail 500 "Server missing GITHUB_TOKEN environment variable."
             "MISSING_GITHUB_TOKEN")
  | Some githubToken =>
      produceReadme owner' repo' githubToken (GEMINI_API_KEY env)
        (initialErrors (GEMINI_API_KEY env))
  end end end.

Definition generateReadmeRoute (body : JsVal) (env : ProcessEnv) : Net HttpReply :=
  tryCatch (handleRequest body env)
    (fun _ => ret (fail 500 "Unexpected server error." "INTERNAL_ERROR")).

(** Running the handler on a fresh request. *)
Definition run (w : World) (body : JsVal) (env : ProcessEnv) : outcome HttpReply * Trace :=
  generateReadmeRoute body env w [].

(** * Vocabulary of the properties *)

(** ** The document as the specification reads it

    A document is a sequence of sections; a section is a heading line, the
    lines of its body and an empty line that closes it. *)

Definition DocSection : Type := (string * list string)%type.

Definition sectionLines (s : DocSection) : list string :=
  (fst s :: snd s ++ [EmptyString])%list.

Definition render (sections : list DocSection) : string :=
  Js.join LF (concat (map sectionLines sections)).

(** The local variables of [buildReadme] when [generated] has its declared
    type. *)
Definition titleOf (meta : RepoMetadata) : string :=
  if Js.isEmpty (name meta) then owner meta ++ "/" ++ repo meta else name meta.

Definition descriptionOf (meta : RepoMetadata) (t : TypedSections) : string :=
  Js.trim
    match t_description t with
    | Some d => d
    | None => match description meta with Some d => d | None => notSpecified end
    end.

Definition featuresOf (t : TypedSections) : list string :=
  let featuresArr :=
    filter (fun s => negb (Js.isEmpty s))
      (map Js.trim (match t_features t with Some l => l | None => [] end)) in
  match featuresArr with [] => [notSpecified] | _ => featuresArr end.

Definition installationOf (t : TypedSections) : string :=
  Js.trim (match t_installation t with Some s => s | None => notSpecified end).

Definition usageOf (t : TypedSections) : string :=
  Js.trim (match t_usage t with Some s => s | None => notSpecified end).

(** What is pushed under each heading. *)
Definition installationBlock (installation : string) : string :=
  if Js.includes fence installation then installation
  else "```bash" ++ LF ++ installation ++ LF ++ fence.

Definition usageBlock (usage : string) : string :=
  if Js.includes fence usage then usage
  else if negb (String.eqb usage notSpecified)
       then fence ++ LF ++ usage ++ LF ++ fence
       else usage.

Definition techStackBlock (meta : RepoMetadata) : string :=
  Js.join LF
    (map bullet
       (Js.splitComma
          match languages meta with
          | [] => notSpecified
          | _ => Js.join ", " (languages meta)
          end)).

Definition structureBlock (meta : RepoMetadata) : string :=
  match tree meta with
  | [] => notSpecified
  | first :: _ =>
      if negb (String.eqb first notSpecified)
      then fence ++ LF ++ Js.join LF (tree meta) ++ LF ++ fence
      else notSpecified
  end.

Definition licenseOf (meta : RepoMetadata) : string :=
  match license meta with Some l => l | None => notSpecified end.

(** The eight sections, in the order [buildReadme] pushes them. *)
Definition sectionsOf (meta : RepoMetadata) (t : TypedSections) : list DocSection :=
  [ ("# " ++ titleOf meta, []);
    ("## Description", [descriptionOf meta t]);
    ("## Features", map bullet (featuresOf t));
    ("## Installation Guide", [installationBlock (installationOf t)]);
    ("## Usage", [usageBlock (usageOf t)]);
    ("## Tech Stack", [techStackBlock meta]);
    ("## Project Structure", [structureBlock meta]);
    ("## License Information", [licenseOf meta]) ].

Definition noFlags : FilledFlags :=
  {| filled_description := false; filled_features := false;
     filled_usage := false; filled_installation := false |}.

(** [trim] removes white space only, so it neither creates nor destroys a
    fence marker. *)
Definition noWhiteSpace (p : string) : Prop :=
  forall c, In c (list_ascii_of_string p) -> Js.isWhiteSpace c = false.

(** ** Requests that reach the hosting provider *)

(** The request names the repository [owner'/repo'] and the server holds
    the hosting-provider token [token]: no early return is taken. *)
Definition reachesFetch (body : JsVal) (env : ProcessEnv)
    (owner' repo' token : string) : Prop :=
  exists url,
    requestedUrl body = Returned (Some url) /\
    url <> EmptyString /\
    parseRepoUrl url = Some (owner', repo') /\
    whenTruthy (GITHUB_TOKEN env) = Some token.

(** An endpoint answered, and the answer is not a success. *)
Definition notOk {T : Type} (answer : outcome (Response T)) : Prop :=
  exists res, answer = Returned res /\ ok res = false.

Definition repoInfoUrl (owner' repo' : string) : string :=
  "https://api.github.com/repos/" ++ owner' ++ "/" ++ repo'.

Definition languagesUrl (owner' repo' : string) : string :=
  repoInfoUrl owner' repo' ++ "/languages".

Definition treeUrl (owner' repo' branch : string) : string :=
  repoInfoUrl owner' repo' ++ "/git/trees/" ++ encodeURIComponent branch ++ "?recursive=1".

(** One of the three calls of [fetchRepoMetadata] is answered with a
    non-success response; the tree call is the one for the default branch
    the repository call announced. *)
Inductive upstreamCallFails (w : World) (owner' repo' token : string) : Prop :=
| RepoInfoFails :
    notOk (repoEndpoint w (repoInfoUrl owner' repo') (githubHeaders token)) ->
    upstreamCallFails w owner' repo' token
| LanguagesFails :
    notOk (languagesEndpoint w (languagesUrl owner' repo') (githubHeaders token)) ->
    upstreamCallFails w owner' repo' token
| TreeFails (res : Response RepoData) (data : RepoData) :
    repoEndpoint w (repoInfoUrl owner' repo') (githubHeaders token) = Returned res ->
    ok res = true ->
    json res = Returned data ->
    notOk (treeEndpoint w (treeUrl owner' repo' (default_branch data))
             (githubHeaders token)) ->
    upstreamCallFails w owner' repo' token.

Definition isGet (request : Request) : bool :=
  match request with Get _ _ => true | Post _ _ _ => false end.

(** What [fetchJson] does with the answer of its endpoint. *)
Definition jsonOf {T : Type} (answer : outcome (Response T)) : outcome T :=
  match answer with
  | Returned res =>
      if negb (ok res) then
        Thrown (Error ("HTTP " ++ Js.ofNumber (status res) ++ " " ++ statusText res
                       ++ ": " ++ text res))
      else json res
  | Thrown e => Thrown e
  end.

(** ** Answers of the generative service *)

Definition geminiHeaders : Headers := [("Content-Type", "application/json")].

(** The answer of the generative service to the one request [callGemini]
    makes. *)
Definition geminiAnswer (w : World) (key : string) (meta : RepoMetadata)
  : outcome (Response JsVal) :=
  geminiEndpoint w (geminiUrl key) geminiHeaders (geminiBody meta).

Definition geminiRequest (key : string) (meta : RepoMetadata) : Request :=
  Post (geminiUrl key) geminiHeaders (geminiBody meta).

(** What [callGemini] makes of that answer. *)
Definition sectionsOfAnswer (w : World) (answer : outcome (Response JsVal))
  : outcome GeneratedSections :=
  match answer with
  | Thrown e => Thrown e
  | Returned res =>
      if negb (ok res) then
        Thrown (Error ("Gemini API error " ++ Js.ofNumber (status res) ++ ": " ++ text res))
      else
        match json res with
        | Thrown e => Thrown e
        | Returned data =>
            match sectionsOfReply (JSON_parse w) (replyText data) with
            | Returned out => Returned out
            | Thrown _ => Returned noSections
            end
        end
  end.

Definition geminiError (e : JsError) : ApiError :=
  {| err_code := "GEMINI_API_ERROR";
     err_message := Js.slice0 500 ("Gemini API error: " ++ message e) |}.

(** The ways the generative service can fail: the transport rejects, the
    response is not a success, the body of the response is not JSON, or the
    text it carries is not JSON. *)
Inductive generationFails (w : World) (key : string) (meta : RepoMetadata) : Prop :=
| TransportError (e : JsError) :
    geminiAnswer w key meta = Thrown e ->
    generationFails w key meta
| NonSuccess :
    notOk (geminiAnswer w key meta) ->
    generationFails w key meta
| UnparseableBody (res : Response JsVal) (e : JsError) :
    geminiAnswer w key meta = Returned res ->
    ok res = true ->
    json res = Thrown e ->
    generationFails w key meta
| UnparseablePayload (res : Response JsVal) (data : JsVal) (e : JsError) :
    geminiAnswer w key meta = Returned res ->
    ok res = true ->
    json res = Returned data ->
    JSON_parse w (replyText data) = Thrown e ->
    generationFails w key meta.

Definition isString (v : JsVal) : bool :=
  match v with JStr _ => true | _ => false end.

Definition hasNonString (items : list JsVal) : bool :=
  existsb (fun v => negb (isString v)) items.

(** ** Repository references *)

Fixpoint allNameChars (s : string) : bool :=
  match s with
  | EmptyString => true
  | String c s' => isNameChar c && allNameChars s'
  end.

(** A non-empty run of alphanumerics, dots, underscores and hyphens. *)
Definition isName (s : string) : Prop :=
  s <> EmptyString /\ allNameChars s = true.

Fixpoint lowerAscii (s : string) : string :=
  match s with
  | EmptyString => EmptyString
  | String c s' => String (toLowerAscii c) (lowerAscii s')
  end.

Definition startsWithNameChar (s : string) : bool :=
  match s with
  | String c _ => isNameChar c
  | EmptyString => false
  end.

(** The characters up to the first slash, and what follows them. *)
Fixpoint spanHost (s : string) : string * string :=
  match s with
  | String c s' =>
      if Ascii.eqb c "/" then (EmptyString, s)
      else let (host, rest) := spanHost s' in (String c host, rest)
  | EmptyString => (EmptyString, EmptyString)
  end.

Fixpoint stripPrefix (lit s : string) : option string :=
  match lit, s with
  | EmptyString, _ => Some s
  | String a lit', String c s' =>
      if Ascii.eqb a c then stripPrefix lit' s' else None
  | String _ _, EmptyString => None
  end.

Definition toleratedTail (s : string) : bool :=
  match s with
  | EmptyString => true
  | String c EmptyString => Ascii.eqb c "/" || Ascii.eqb c "#"
  | String c _ => Ascii.eqb c "#"
  end.

(** The reference pattern in the words of the specification:
    [https://<host>/<owner>/<name>], owner and name over alphanumerics, dot,
    underscore and hyphen, with an optional trailing slash or fragment. *)
Definition specReferencePattern (url : string) : bool :=
  match stripPrefix "https://" url with
  | None => false
  | Some afterScheme =>
      match spanHost afterScheme with
      | (EmptyString, _) => false
      | (_, String _ afterHost) =>
          match spanName afterHost with
          | (EmptyString, _) => false
          | (_, String c afterSlash) =>
              Ascii.eqb c "/" &&
              match spanName afterSlash with
              | (EmptyString, _) => false
              | (_, rest) => toleratedTail rest
              end
          | (_, EmptyString) => false
          end
      | (_, EmptyString) => false
      end
  end.

Definition invalidUrlMessage : string :=
  "Invalid GitHub repository URL. Expected https://github.com/<owner>/<repo>".

(** ** Sample metadata, narratives, worlds and requests *)

Definition widgetMeta : RepoMetadata :=
  {| owner := "acme"; repo := "widget"; name := "widget";
     description := Some "A widget."; languages := ["TypeScript"];
     license := Some "MIT"; defaultBranch := "main"; homepage := None;
     topics := []; tree := ["src"; "src/index.ts"] |}.

Definition noNarrative : TypedSections :=
  {| t_description := None; t_features := None; t_usage := None;
     t_installation := None |}.

Definition blankDescription : TypedSections :=
  {| t_description := Some "  "; t_features := None; t_usage := None;
     t_installation := None |}.

Definition fencedNarrative : TypedSections :=
  {| t_description := Some "Widgets."; t_features := Some ["fast"];
     t_usage := Some "widget run";
     t_installation := Some ("```sh" ++ LF ++ "npm install" ++ LF ++ "```") |}.

Definition answer {T : Type} (st : N) (stText body : string) (parsed : outcome T)
  : outcome (Response T) :=
  Returned {| status := st; statusText := stText; text := body; json := parsed |}.

Definition widgetRepoData : RepoData :=
  {| default_branch := "main";
     data_name := Some "widget";
     data_description := Some "A widget.";
     data_license := Some {| spdx_id := Some "MIT"; license_name := Some "MIT License" |};
     data_homepage := None;
     data_topics := None |}.

Definition widgetLanguages : LanguagesData := Some [("TypeScript", 1024%N)].

Definition widgetTree : TreeData :=
  {| tree_nodes := Some [ {| path := "src"; type := "tree" |};
                          {| path := "src/index.ts"; type := "blob" |} ] |}.

(** The reply of the generative service whose first candidate carries the
    text [payload]. *)
Definition geminiReplyWith (payload : string) : JsVal :=
  JObj [("candidates",
         JArr [JObj [("content",
                      JObj [("parts", JArr [JObj [("text", JStr payload)]])])]])].

(** A [JSON.parse] that reads [payload] as [value] and rejects everything
    else. *)
Definition parseOnly (payload : string) (value : JsVal) (v : JsVal) : outcome JsVal :=
  match v with
  | JStr s =>
      if String.eqb s payload then Returned value
      else Thrown (SyntaxError "Unexpected token")
  | _ => Thrown (SyntaxError "Unexpected token")
  end.

(** The hosting provider answers all three calls about [acme/widget] with
    [repoData]; the generative service answers with [gemini]. *)
Definition worldWith (repoData : RepoData) (gemini : outcome (Response JsVal))
    (parse : JsVal -> outcome JsVal) : World :=
  {| repoEndpoint := fun _ _ => answer 200 "OK" EmptyString (Returned repoData);
     languagesEndpoint := fun _ _ => answer 200 "OK" EmptyString (Returned widgetLanguages);
     treeEndpoint := fun _ _ => answer 200 "OK" EmptyString (Returned widgetTree);
     geminiEndpoint := fun _ _ _ => gemini;
     JSON_parse := parse |}.

Definition worldReplying (payload : string) (value : JsVal) : World :=
  worldWith widgetRepoData
    (answer 200 "OK" EmptyString (Returned (geminiReplyWith payload)))
    (parseOnly payload value).

(** The hosting provider does not know the repository (scenario 3). *)
Definition notFoundWorld : World :=
  {| repoEndpoint := fun _ _ =>
       answer 404 "Not Found" "Not Found" (Thrown (SyntaxError "Unexpected token"));
     languagesEndpoint := fun _ _ => answer 200 "OK" EmptyString (Returned widgetLanguages);
     treeEndpoint := fun _ _ => answer 200 "OK" EmptyString (Returned widgetTree);
     geminiEndpoint := fun _ _ _ => Thrown (TypeError "fetch failed");
     JSON_parse := fun _ => Thrown (SyntaxError "Unexpected token") |}.

(** The generative service is down. *)
Definition geminiDownWorld : World :=
  worldWith widgetRepoData
    (answer 503 "Service Unavailable" "overloaded" (Thrown (SyntaxError "Unexpected token")))
    (fun _ => Thrown (SyntaxError "Unexpected token")).

Definition requestFor (url : string) : JsVal := JObj [("repoUrl", JStr url)].

Definition widgetRequest : JsVal := requestFor "https://github.com/acme/widget".

Definition fullEnv : ProcessEnv :=
  {| GITHUB_TOKEN := Some "ghp_token"; GEMINI_API_KEY := Some "gm_key" |}.

Definition noGeminiEnv : ProcessEnv :=
  {| GITHUB_TOKEN := Some "ghp_token"; GEMINI_API_KEY := None |}.

Definition noTokenEnv : ProcessEnv :=
  {| GITHUB_TOKEN := None; GEMINI_API_KEY := Some "gm_key" |}.

Definition fetchedWidget : RepoMetadata :=
  metadataOf "acme" "widget" widgetRepoData widgetLanguages widgetTree.

Definition githubTrace : Trace :=
  [ Get (repoInfoUrl "acme" "widget") (githubHeaders "ghp_token");
    Get (languagesUrl "acme" "widget") (githubHeaders "ghp_token");
    Get (treeUrl "acme" "widget" "main") (githubHeaders "ghp_token") ].

(** A reply whose [features] array holds a number next to a string. *)
Definition mixedFeaturesPayload : string :=
  "{" ++ quoted "features" ++ ":[" ++ quoted "fast" ++ ",42]}".

Definition mixedFeatures : JsVal :=
  JObj [("features", JArr [JStr "fast"; JNum 42%float])].

(** A reply whose [description] is a number. *)
Definition numericDescriptionPayload : string :=
  "{" ++ quoted "description" ++ ":5," ++ quoted "usage" ++ ":" ++ quoted "run it" ++ "}".

Definition numericDescription : JsVal :=
  JObj [("description", JNum 5%float); ("usage", JStr "run it")].

(** A reply whose [description] is the empty string. *)
Definition blankDescriptionPayload : string :=
  "{" ++ quoted "description" ++ ":" ++ quoted EmptyString ++ "}".

Definition blankDescriptionReply : JsVal := JObj [("description", JStr EmptyString)].

(** A repository with no languages and no files (scenario 5). *)
Definition bareMeta : RepoMetadata :=
  {| owner := "acme"; repo := "empty"; name := "empty"; description := None;
     languages := []; license := None; defaultBranch := "main"; homepage := None;
     topics := []; tree := [] |}.

Definition shortDescriptionData : RepoData :=
  {| default_branch := "main";
     data_name := Some "widget";
     data_description := Some "abc";
     data_license := None;
     data_homepage := None;
     data_topics := None |}.

(** Nothing is ever asked of the generative service in this world. *)
Definition silentGeminiWorld : World :=
  worldWith shortDescriptionData (Thrown (TypeError "fetch failed"))
    (fun _ => Thrown (SyntaxError "Unexpected token")).

(** * The other entry points *)

(** ** The client's check of the URL ([client/pages/Index.tsx])

    [validateUrl] tests the trimmed input against
    [/^https:\/\/github\.com\/[A-Za-z0-9_.-]+\/[A-Za-z0-9_.-]+(\/)?$/i]. *)

(** [(\/)?$]: nothing, or one slash. *)
Definition matchesClientTail (s : string) : bool :=
  match s with
  | EmptyString => true
  | String c EmptyString => Ascii.eqb c "/"
  | _ => false
  end.

Definition validateUrl (url : string) : bool :=
  match stripPrefixCI "https://github.com/" (Js.trim url) with
  | None => false
  | Some afterHost =>
      match spanName afterHost with
      | (EmptyString, _) => false
      | (_, String c afterSlash) =>
          if Ascii.eqb c "/" then
            match spanName afterSlash with
            | (EmptyString, _) => false
            | (_, rest) => matchesClientTail rest
            end
          else false
      | (_, EmptyString) => false
      end
  end.

(** ** [handleEnvCheck] *)

Record EnvCheck : Type := { hasGitHub : bool; hasGemini : bool }.

(** [Boolean(v && v.trim())] for an environment variable. *)
Definition isConfigured (v : option string) : bool :=
  match v with
  | Some s => if Js.isEmpty s then false else negb (Js.isEmpty (Js.trim s))
  | None => false
  end.

Definition handleEnvCheck (env : ProcessEnv) : EnvCheck :=
  {| hasGitHub := isConfigured (GITHUB_TOKEN env);
     hasGemini := isConfigured (GEMINI_API_KEY env) |}.

(** ** The serverless function ([netlify/functions/api.ts])

    [performGenerate] is imported from a module that is not part of the
    sources at hand: it is a parameter of the model, free to return any
    payload or to throw any value.  The event is read at the fields the
    handler uses; the body of a response is the value handed to
    [JSON.stringify]. *)

(** [s.toUpperCase()] as code units: the upper case of a code unit below
    256 can lie above 255 ([0xB5], [0xFF]) or be two code units ([0xDF]). *)
Definition upperCodeUnits (c : ascii) : list N :=
  let n := N_of_ascii c in
  if ((97 <=? n) && (n <=? 122))%N then [(n - 32)%N]
  else if (n =? 181)%N then [924%N]
  else if (n =? 223)%N then [83%N; 83%N]
  else if (n =? 255)%N then [376%N]
  else if ((224 <=? n) && (n <=? 254) && negb (n =? 247))%N then [(n - 32)%N]
  else [n].

Fixpoint toUpperCase (s : string) : list N :=
  match s with
  | EmptyString => []
  | String c s' => (upperCodeUnits c ++ toUpperCase s')%list
  end.

Fixpoint codeUnits (s : string) : list N :=
  match s with
  | EmptyString => []
  | String c s' => N_of_ascii c :: codeUnits s'
  end.

(** [s.toUpperCase() === lit] *)
Definition upperCaseIs (lit s : string) : bool :=
  if list_eq_dec N.eq_dec (toUpperCase s) (codeUnits lit) then true else false.

(** [s.endsWith(suffix)] *)
Fixpoint endsWith (suffix s : string) : bool :=
  String.eqb s suffix ||
  match s with
  | String _ s' => endsWith suffix s'
  | EmptyString => false
  end.

Record LambdaEvent : Type := {
  event_path : option string;
  event_httpMethod : option string;
  event_body : option string
}.

Record LambdaResponse : Type := {
  statusCode : N;
  response_headers : Headers;
  response_body : JsVal
}.

(** [json(data, status)] *)
Definition jsonResponse (data : JsVal) (status : N) : LambdaResponse :=
  {| statusCode := status;
     response_headers := [("Content-Type", "application/json")];
     response_body := data |}.

(** A thrown value: an [Error] instance, or any other value. *)
Inductive Throwable : Type :=
| ThrownError (e : JsError)
| ThrownValue (v : JsVal).

(** How a promise settles. *)
Inductive Settled (A : Type) : Type :=
| Resolved (a : A)
| Rejected (e : Throwable).
Arguments Resolved {A} a.
Arguments Rejected {A} e.

(** [performGenerate(repoUrl, githubToken, geminiKey)], not in the sources. *)
Definition PerformGenerate : Type :=
  string -> option string -> option string -> Settled JsVal.

(** [e?.key] on a thrown value; an [Error] instance has a [message] and
    neither [code] nor [error]. *)
Definition thrownGet (key : string) (e : Throwable) : JsVal :=
  match e with
  | ThrownError err => if String.eqb key "message" then JStr (message err) else JUndefined
  | ThrownValue v => optGet key v
  end.

(** [a || b] *)
Definition orValue (a b : JsVal) : JsVal := if truthy a then a else b.

Definition isTheString (lit : string) (v : JsVal) : bool :=
  match v with JStr s => String.eqb s lit | _ => false end.

(** [c?.includes("GITHUB")] as a condition: absent is falsy, a string is
    searched, an array is scanned, anything else has no such method. *)
Definition includesGithub (c : JsVal) : outcome bool :=
  match c with
  | JUndefined | JNull => Returned false
  | JStr s => Returned (Js.includes "GITHUB" s)
  | JArr items => Returned (existsb (isTheString "GITHUB") items)
  | _ => Thrown (TypeError "includes is not a function")
  end.

(** The [catch] block of the generate branch. *)
Definition answerError (e : Throwable) : Settled LambdaResponse :=
  let code' := thrownGet "code" e in
  let answerWith status :=
    Resolved
      (jsonResponse
         (JObj [ ("error",
                  orValue (thrownGet "error" e)
                    (orValue (thrownGet "message" e) (JStr "Internal error")));
                 ("code", orValue code' (JStr "INTERNAL_ERROR")) ])
         status) in
  if isTheString "INVALID_REPO_URL" code' then answerWith 400%N
  else
    match includesGithub code' with
    | Returned true => answerWith 502%N
    | Returned false => answerWith 500%N
    | Thrown err => Rejected (ThrownError err)
    end.

(** The body the function reads from the event:
    [event.body ? JSON.parse(event.body) : {}]. *)
Definition eventBody (w : World) (event : LambdaEvent) : outcome JsVal :=
  if truthyString (event_body event)
  then JSON_parse w (ofOption (event_body event))
  else Returned (JObj []).

(** The [try] block of the generate branch. *)
Definition generateBranch (performGenerate : PerformGenerate) (w : World)
    (env : ProcessEnv) (event : LambdaEvent) : Settled LambdaResponse :=
  match eventBody w event with
  | Thrown err => answerError (ThrownError err)
  | Returned body =>
      match callTrim (orValue (optGet "repoUrl" body) (JStr EmptyString)) with
      | Thrown err => answerError (ThrownError err)
      | Returned repoUrl =>
          if Js.isEmpty repoUrl then
            Resolved
              (jsonResponse
                 (JObj [ ("error", JStr "Repository URL is required.");
                         ("code", JStr "MISSING_REPO_URL") ])
                 400%N)
          else
            match performGenerate repoUrl (GITHUB_TOKEN env) (GEMINI_API_KEY env) with
            | Resolved payload => Resolved (jsonResponse payload 200%N)
            | Rejected e => answerError e
            end
      end
  end.

(** [handler(event)]; [pingMessage] is [process.env.PING_MESSAGE]. *)
Definition handler (performGenerate : PerformGenerate) (w : World) (env : ProcessEnv)
    (pingMessage : option string) (event : LambdaEvent) : Settled LambdaResponse :=
  let path' := match whenTruthy (event_path event) with Some p => p | None => EmptyString end in
  let methodIs lit :=
    upperCaseIs lit
      (match whenTruthy (event_httpMethod event) with Some m => m | None => "GET" end) in
  if endsWith "/api/ping" path' && methodIs "GET" then
    Resolved
      (jsonResponse
         (JObj [("message",
                 JStr (match pingMessage with Some m => m | None => "ping" end))])
         200%N)
  else if endsWith "/api/env-check" path' && methodIs "GET" then
    Resolved
      (jsonResponse
         (JObj [ ("hasGitHub", JBool (isConfigured (GITHUB_TOKEN env)));
                 ("hasGemini", JBool (isConfigured (GEMINI_API_KEY env))) ])
         200%N)
  else if endsWith "/api/generate-readme" path' && methodIs "POST" then
    generateBranch performGenerate w env event
  else
    Resolved (jsonResponse (JObj [("error", JStr "Not Found")]) 404%N).

(** * Vocabulary of the further properties *)

(** ** The outcomes of a request *)

(** What the narrative stage hands over, and the request it makes. *)
Definition narrated (w : World) (geminiKey : option string) (meta : RepoMetadata)
    (errors0 : list ApiError) : GeneratedSections * list ApiError :=
  match whenTruthy geminiKey with
  | None => (noSections, errors0)
  | Some key =>
      match sectionsOfAnswer w (geminiAnswer w key meta) with
      | Returned g => (g, errors0)
      | Thrown e => (noSections, (errors0 ++ [geminiError e])%list)
      end
  end.

Definition narrativeTrace (geminiKey : option string) (meta : RepoMetadata) : Trace :=
  match whenTruthy geminiKey with
  | None => []
  | Some key => [geminiRequest key meta]
  end.

(** The three requests of [fetchRepoMetadata], in the order it makes them. *)
Definition githubRequests (owner' repo' token branch : string) : Trace :=
  [ Get (repoInfoUrl owner' repo') (githubHeaders token);
    Get (languagesUrl owner' repo') (githubHeaders token);
    Get (treeUrl owner' repo' branch) (githubHeaders token) ].

Definition internalError : HttpReply :=
  fail 500 "Unexpected server error." "INTERNAL_ERROR".

(** The seven ways a request can end: the reply and the requests issued. *)
Inductive RunCase (w : World) (body : JsVal) (env : ProcessEnv)
  : outcome HttpReply * Trace -> Prop :=
| BodyUnreadable (e : JsError) :
    requestedUrl body = Thrown e ->
    RunCase w body env (Returned internalError, [])
| UrlMissing (repoUrl : option string) :
    requestedUrl body = Returned repoUrl ->
    whenTruthy repoUrl = None ->
    RunCase w body env
      (Returned (fail 400 "Repository URL is required." "MISSING_REPO_URL"), [])
| UrlInvalid (url : string) :
    requestedUrl body = Returned (Some url) ->
    url <> EmptyString ->
    parseRepoUrl url = None ->
    RunCase w body env (Returned (fail 400 invalidUrlMessage "INVALID_REPO_URL"), [])
| TokenMissing (url owner' repo' : string) :
    requestedUrl body = Returned (Some url) ->
    url <> EmptyString ->
    parseRepoUrl url = Some (owner', repo') ->
    whenTruthy (GITHUB_TOKEN env) = None ->
    RunCase w body env
      (Returned (fail 500 "Server missing GITHUB_TOKEN environment variable."
                   "MISSING_GITHUB_TOKEN"), [])
| UpstreamFailed (owner' repo' token : string) (e : JsError) (tr : Trace) :
    reachesFetch body env owner' repo' token ->
    fetchRepoMetadata owner' repo' token w [] = (Thrown e, tr) ->
    RunCase w body env
      (Returned (fail 502 (Js.slice0 500 ("GitHub API error: " ++ message e))
                   "GITHUB_API_ERROR"), tr)
| AssemblyFailed (owner' repo' token : string) (meta : RepoMetadata) (tr : Trace)
    (e : JsError) :
    reachesFetch body env owner' repo' token ->
    fetchRepoMetadata owner' repo' token w [] = (Returned meta, tr) ->
    (let n := narrated w (GEMINI_API_KEY env) meta (initialErrors (GEMINI_API_KEY env)) in
     assembleReply meta (fst n) (snd n) = Thrown e) ->
    RunCase w body env
      (Returned internalError, (tr ++ narrativeTrace (GEMINI_API_KEY env) meta)%list)
| Answered (owner' repo' token : string) (meta : RepoMetadata) (tr : Trace)
    (reply : HttpReply) :
    reachesFetch body env owner' repo' token ->
    fetchRepoMetadata owner' repo' token w [] = (Returned meta, tr) ->
    (let n := narrated w (GEMINI_API_KEY env) meta (initialErrors (GEMINI_API_KEY env)) in
     assembleReply meta (fst n) (snd n) = Returned reply) ->
    RunCase w body env
      (Returned reply, (tr ++ narrativeTrace (GEMINI_API_KEY env) meta)%list).

(** The status and code pairs of [ErrorResponse]s. *)
Definition errorKinds : list (N * string) :=
  [ (400%N, "MISSING_REPO_URL"); (400%N, "INVALID_REPO_URL");
    (500%N, "MISSING_GITHUB_TOKEN"); (502%N, "GITHUB_API_ERROR");
    (500%N, "INTERNAL_ERROR") ].

Definition missingKeyWarning : ApiError :=
  {| err_code := "MISSING_GEMINI_API_KEY";
     err_message := "Server missing GEMINI_API_KEY; generated content may be limited." |}.

(** The warnings of a payload ([errors] is [undefined] when there is none). *)
Definition warnings (payload : GenerateReadmeResponse) : list ApiError :=
  match errors payload with Some l => l | None => [] end.

(** ** The shape [buildReadme] needs *)

(** A value that is absent ([null] or [undefined]) or a string. *)
Definition asOptionalString (v : JsVal) : option (option string) :=
  match v with
  | JUndefined | JNull => Some None
  | JStr s => Some (Some s)
  | _ => None
  end.

Fixpoint asStrings (items : list JsVal) : option (list string) :=
  match items with
  | [] => Some []
  | JStr s :: rest =>
      match asStrings rest with
      | Some l => Some (s :: l)
      | None => None
      end
  | _ :: _ => None
  end.

(** A value that is absent or an array of strings. *)
Definition asOptionalStrings (v : JsVal) : option (option (list string)) :=
  match v with
  | JUndefined | JNull => Some None
  | JArr items =>
      match asStrings items with
      | Some l => Some (Some l)
      | None => None
      end
  | _ => None
  end.

(** The typed reading of a narrative record, when it has one. *)
Definition typedOf (g : GeneratedSections) : option TypedSections :=
  match asOptionalString (gen_description g), asOptionalStrings (gen_features g),
        asOptionalString (gen_usage g), asOptionalString (gen_installation g) with
  | Some d, Some f, Some u, Some i =>
      Some {| t_description := d; t_features := f; t_usage := u; t_installation := i |}
  | _, _, _, _ => None
  end.

(** A request to the hosting provider that carries [token]. *)
Definition isGithubRequest (token : string) (request : Request) : Prop :=
  exists url,
    request = Get url (githubHeaders token) /\
    String.prefix "https://api.github.com/repos/" url = true.

(** A tree node the metadata keeps: a file or a directory. *)
Definition isKept (n : TreeNode) : bool :=
  String.eqb (type n) "blob" || String.eqb (type n) "tree".

Definition nodesOf (treeData : TreeData) : list TreeNode :=
  match tree_nodes treeData with Some l => l | None => [] end.

Fixpoint hasComma (s : string) : bool :=
  match s with
  | EmptyString => false
  | String c s' => Ascii.eqb c "," || hasComma s'
  end.

Definition startsWithWhiteSpace (s : string) : bool :=
  match s with
  | String c _ => Js.isWhiteSpace c
  | EmptyString => false
  end.

Definition startsClean (s : string) : Prop := startsWithWhiteSpace s = false.

(** The event asks for a README: the path ends in [/api/generate-readme]
    and the method is POST in any letter case. *)
Definition asksForReadme (event : LambdaEvent) : bool :=
  endsWith "/api/generate-readme"
    (match whenTruthy (event_path event) with Some p => p | None => EmptyString end) &&
  upperCaseIs "POST"
    (match whenTruthy (event_httpMethod event) with Some m => m | None => "GET" end).

(** The [repoUrl] of a parsed body is absent, or a blank string. *)
Definition hasBlankUrl (body : JsVal) : Prop :=
  optGet "repoUrl" body = JUndefined \/ optGet "repoUrl" body = JNull \/
  exists s, optGet "repoUrl" body = JStr s /\ Js.trim s = EmptyString.

(** A [code] the [catch] block can test: absent, a string or an array. *)
Definition isTestableCode (c : JsVal) : bool :=
  match c with
  | JUndefined | JNull | JStr _ | JArr _ => true
  | _ => false
  end.

Definition missingUrlBody : JsVal :=
  JObj [ ("error", JStr "Repository URL is required.");
         ("code", JStr "MISSING_REPO_URL") ].

(** ** Characters of the URLs sent upstream *)

Definition isHexDigit (c : ascii) : bool :=
  let n := N_of_ascii c in
  ((48 <=? n) && (n <=? 57) || (65 <=? n) && (n <=? 70))%N.

(** A character [encodeURIComponent] can produce. *)
Definition isEncoded (c : ascii) : bool :=
  isUriUnreserved c || Ascii.eqb c "%" || isHexDigit c.

Fixpoint allChars (p : ascii -> bool) (s : string) : bool :=
  match s with
  | EmptyString => true
  | String c s' => p c && allChars p s'
  end.

Definition githubApi : string := "https://api.github.com/repos/".

Definition geminiApi : string :=
  "https://generativelanguage.googleapis.com/v1beta/models/gemini-1.5-flash-latest:generateContent?key=".

(** The three shapes of a request to the hosting provider about
    [owner'/repo'], and the shape of the request to the generative
    service; [segment] is the one part that is percent-encoded. *)
Inductive UpstreamRequest (owner' repo' token : string) : Request -> Prop :=
| RepoInfoRequest :
    UpstreamRequest owner' repo' token
      (Get (githubApi ++ owner' ++ "/" ++ repo') (githubHeaders token))
| LanguagesRequest :
    UpstreamRequest owner' repo' token
      (Get ((githubApi ++ owner' ++ "/" ++ repo') ++ "/languages") (githubHeaders token))
| TreeRequest (segment : string) :
    allChars isEncoded segment = true ->
    UpstreamRequest owner' repo' token
      (Get ((githubApi ++ owner' ++ "/" ++ repo') ++ "/git/trees/" ++ segment
            ++ "?recursive=1") (githubHeaders token)).

(** The generative service answered the request for [meta] with a success
    whose text parses to the object [props]. *)
Definition generatorReplied (w : World) (key : string) (meta : RepoMetadata)
    (props : list (string * JsVal)) : Prop :=
  exists res data,
    geminiAnswer w key meta = Returned res /\
    ok res = true /\
    json res = Returned data /\
    JSON_parse w (replyText data) = Returned (JObj props).

(** ** Further samples *)

(** Six hundred characters. *)
Definition flood : string := string_of_list_ascii (repeat "x"%char 600).

(** The hosting provider fails with a very long body. *)
Definition floodedWorld : World :=
  {| repoEndpoint := fun _ _ =>
       answer 500 "Internal Server Error" flood (Thrown (SyntaxError "Unexpected token"));
     languagesEndpoint := fun _ _ => answer 200 "OK" EmptyString (Returned widgetLanguages);
     treeEndpoint := fun _ _ => answer 200 "OK" EmptyString (Returned widgetTree);
     geminiEndpoint := fun _ _ _ => Thrown (TypeError "fetch failed");
     JSON_parse := fun _ => Thrown (SyntaxError "Unexpected token") |}.

(** The payload of the response when the generative service is down. *)
Definition downPayload : GenerateReadmeResponse :=
  {| readme := render (sectionsOf fetchedWidget noNarrative);
     fileName := "widget-README.md";
     metadata := fetchedWidget;
     filledWithGemini := noFlags;
     errors := Some [geminiError (Error "Gemini API error 503: overloaded")] |}.

Definition twoLanguagesMeta : RepoMetadata :=
  {| owner := "acme"; repo := "widget"; name := "widget"; description := None;
     languages := ["TypeScript"; "CSS"]; license := None; defaultBranch := "main";
     homepage := None; topics := []; tree := [] |}.

(** A [performGenerate] that always throws the object a missing token
    would be reported with. *)
Definition refusingGenerate : PerformGenerate :=
  fun _ _ _ =>
    Rejected (ThrownValue (JObj [ ("error", JStr "Server missing GITHUB_TOKEN environment variable.");
                                  ("code", JStr "MISSING_GITHUB_TOKEN") ])).

Definition generateEvent (body : option string) : LambdaEvent :=
  {| event_path := Some "/.netlify/functions/api/generate-readme";
     event_httpMethod := Some "post";
     event_body := body |}.

Definition shortMeta : RepoMetadata :=
  metadataOf "acme" "widget" shortDescriptionData widgetLanguages widgetTree.

(** The payload for the repository described as [abc] when no
    generative-service key is set. *)
Definition adoptedPayload : GenerateReadmeResponse :=
  {| readme :=
       render (sectionsOf shortMeta
                 {| t_description := Some "abc"; t_features := None;
                    t_usage := None; t_installation := None |});
     fileName := "widget-README.md";
     metadata := shortMeta;
     filledWithGemini :=
       {| filled_description := true; filled_features := false;
          filled_usage := false; filled_installation := false |};
     errors := Some [missingKeyWarning] |}.

(** * Properties *)

(** ** White space and fences *)

Lemma prefix_cons (a c : ascii) (p s : string) :
  String.prefix (String a p) (String c s) = Ascii.eqb a c && String.prefix p s.
Proof.
  simpl. destruct (ascii_dec a c) as [->|Hne].
  - rewrite Ascii.eqb_refl. reflexivity.
  - apply Ascii.eqb_neq in Hne. rewrite Hne. reflexivity.
Qed.

Lemma includes_trimStart (p : string) (a : ascii) (s : string) :
  Js.isWhiteSpace a = false ->
  Js.includes (String a p) (Js.trimStart s) = Js.includes (String a p) s.
Proof.
  intros Ha. induction s as [|c s IH]; [reflexivity|].
  cbn [Js.trimStart]. destruct (Js.isWhiteSpace c) eqn:Hc; [|reflexivity].
  rewrite IH. cbn [Js.includes]. rewrite prefix_cons.
  destruct (Ascii.eqb_spec a c) as [->|_]; [congruence|reflexivity].
Qed.

Lemma prefix_trimEnd (p s : string) :
  noWhiteSpace p -> String.prefix p (Js.trimEnd s) = String.prefix p s.
Proof.
  revert p. induction s as [|c s IH]; intros p Hp; [reflexivity|].
  destruct p as [|a p]; [destruct (Js.trimEnd (String c s)); reflexivity|].
  assert (Ha : Js.isWhiteSpace a = false) by (apply Hp; left; reflexivity).
  assert (Hp' : noWhiteSpace p) by (intros x Hx; apply Hp; right; exact Hx).
  specialize (IH p Hp').
  rewrite prefix_cons. cbn [Js.trimEnd].
  destruct (Js.trimEnd s) as [|d t] eqn:Ht.
  - destruct (Js.isWhiteSpace c) eqn:Hc.
    + destruct (Ascii.eqb_spec a c) as [->|_]; [congruence|reflexivity].
    + rewrite prefix_cons, IH. reflexivity.
  - rewrite prefix_cons, IH. reflexivity.
Qed.

Lemma includes_trimEnd (p : string) (a : ascii) (s : string) :
  noWhiteSpace (String a p) ->
  Js.includes (String a p) (Js.trimEnd s) = Js.includes (String a p) s.
Proof.
  intros Hp. induction s as [|c s IH]; [reflexivity|].
  cbn [Js.includes]. rewrite <- (prefix_trimEnd _ (String c s) Hp), <- IH.
  cbn [Js.trimEnd].
  destruct (Js.trimEnd s) as [|d t] eqn:Ht.
  - destruct (Js.isWhiteSpace c) eqn:Hc.
    + reflexivity.
    + cbn [Js.includes]. rewrite !orb_false_r. reflexivity.
  - reflexivity.
Qed.

Lemma fence_noWhiteSpace : noWhiteSpace fence.
Proof.
  intros c Hc. cbn in Hc.
  destruct Hc as [<-|[<-|[<-|[]]]]; reflexivity.
Qed.

Lemma includes_fence_trim (s : string) :
  Js.includes fence (Js.trim s) = Js.includes fence s.
Proof.
  unfold Js.trim, fence.
  rewrite includes_trimEnd by exact fence_noWhiteSpace.
  apply includes_trimStart. reflexivity.
Qed.

(** ** The reference parser *)

Lemma stripPrefixCI_app (prefix' rest : string) :
  stripPrefixCI (lowerAscii prefix') (prefix' ++ rest) = Some rest.
Proof.
  induction prefix' as [|c p IH]; cbn [lowerAscii stripPrefixCI String.append].
  - destruct rest; reflexivity.
  - rewrite Ascii.eqb_refl. exact IH.
Qed.

Lemma stripPrefixCI_inv (lit s rest : string) :
  stripPrefixCI lit s = Some rest ->
  exists prefix', s = prefix' ++ rest /\ lowerAscii prefix' = lit.
Proof.
  revert s. induction lit as [|a lit IH]; intros s H.
  - exists EmptyString. destruct s; inversion H; split; reflexivity.
  - destruct s as [|c s]; [discriminate|]. cbn [stripPrefixCI] in H.
    destruct (Ascii.eqb_spec a (toLowerAscii c)) as [->|_]; [|discriminate].
    destruct (IH s H) as (p & -> & <-).
    exists (String c p). split; reflexivity.
Qed.

Lemma spanName_app (run rest : string) :
  allNameChars run = true ->
  startsWithNameChar rest = false ->
  spanName (run ++ rest) = (run, rest).
Proof.
  intros Hrun Hrest. induction run as [|c run IH]; cbn [String.append].
  - destruct rest as [|d rest]; [reflexivity|].
    cbn [spanName]. cbn [startsWithNameChar] in Hrest. rewrite Hrest. reflexivity.
  - cbn [allNameChars] in Hrun. apply andb_prop in Hrun as [Hc Hrun].
    cbn [spanName]. rewrite Hc, (IH Hrun). reflexivity.
Qed.

Lemma spanName_inv (s run rest : string) :
  spanName s = (run, rest) ->
  s = run ++ rest /\ allNameChars run = true /\ startsWithNameChar rest = false.
Proof.
  revert run rest. induction s as [|c s IH]; intros run rest H.
  - inversion H. repeat split.
  - cbn [spanName] in H. destruct (isNameChar c) eqn:Hc.
    + destruct (spanName s) as [run' rest'] eqn:Hs. inversion H; subst.
      destruct (IH run' rest eq_refl) as (-> & Hrun & Hrest).
      repeat split; [|exact Hrest]. cbn [allNameChars]. rewrite Hc, Hrun. reflexivity.
    + inversion H; subst. repeat split. cbn [startsWithNameChar]. exact Hc.
Qed.

Lemma matchesTail_shape (tail : string) :
  matchesTail tail = true ->
  tail = EmptyString \/ tail = "/" \/ exists rest, tail = "#" ++ rest.
Proof.
  destruct tail as [|c [|d [|x y]]]; cbn [matchesTail]; intros H.
  - left. reflexivity.
  - apply orb_prop in H as [H|H]; apply Ascii.eqb_eq in H; subst.
    + right. left. reflexivity.
    + right. right. exists EmptyString. reflexivity.
  - apply andb_prop in H as [H _]. apply Ascii.eqb_eq in H; subst.
    right. right. eexists. reflexivity.
  - discriminate.
Qed.

Lemma parseRepoUrl_complete (prefix' owner' repo' tail : string) :
  lowerAscii prefix' = "https://github.com/" ->
  isName owner' -> isName repo' ->
  tail = EmptyString \/ tail = "/" ->
  parseRepoUrl (prefix' ++ owner' ++ "/" ++ repo' ++ tail) = Some (owner', repo').
Proof.
  intros Hp [Ho Hoc] [Hr Hrc] Htail. unfold parseRepoUrl.
  rewrite <- Hp, stripPrefixCI_app.
  rewrite (spanName_app owner' ("/" ++ repo' ++ tail) Hoc eq_refl).
  destruct owner' as [|o os]; [contradiction|].
  cbn [String.append]. rewrite Ascii.eqb_refl.
  rewrite (spanName_app repo' tail Hrc)
    by (destruct Htail as [->| ->]; reflexivity).
  destruct repo' as [|r rs]; [contradiction|].
  destruct Htail as [->| ->]; reflexivity.
Qed.

Lemma parseRepoUrl_sound (url owner' repo' : string) :
  parseRepoUrl url = Some (owner', repo') ->
  exists prefix' tail,
    url = prefix' ++ owner' ++ "/" ++ repo' ++ tail /\
    lowerAscii prefix' = "https://github.com/" /\
    isName owner' /\ isName repo' /\
    (tail = EmptyString \/ tail = "/" \/ exists rest, tail = "#" ++ rest).
Proof.
  unfold parseRepoUrl. intros H.
  destruct (stripPrefixCI _ url) as [afterHost|] eqn:Hstrip; [|discriminate].
  destruct (stripPrefixCI_inv _ _ _ Hstrip) as (p & -> & Hp).
  destruct (spanName afterHost) as [m1 rest1] eqn:H1.
  destruct (spanName_inv _ _ _ H1) as (-> & Hm1 & _).
  destruct m1 as [|a m1]; [discriminate|].
  destruct rest1 as [|c afterSlash]; [discriminate|].
  destruct (Ascii.eqb_spec c "/") as [->|_]; [|discriminate].
  destruct (spanName afterSlash) as [m2 rest2] eqn:H2.
  destruct (spanName_inv _ _ _ H2) as (-> & Hm2 & _).
  destruct m2 as [|b m2]; [discriminate|].
  destruct (matchesTail rest2) eqn:Htail; [|discriminate].
  inversion H; subst.
  exists p, rest2. repeat split; try assumption; try discriminate.
  exact (matchesTail_shape _ Htail).
Qed.

Lemma whenTruthy_Some (url : string) :
  url <> EmptyString -> whenTruthy (Some url) = Some url.
Proof.
  intros H. destruct url; [contradiction|reflexivity].
Qed.

(** C5, as stated, fails at three inputs: a reference with a fragment
    matches the pattern of the specification and is rejected; so is a
    reference on another host; and an input that is blank does not match
    and is reported as [MISSING_REPO_URL], not with the invalid-reference
    message. *)
Lemma reference_pattern_differs_from_the_parser :
  (specReferencePattern (Js.trim "https://github.com/acme/widget#readme") = true /\
   parseRepoUrl (Js.trim "https://github.com/acme/widget#readme") = None) /\
  (specReferencePattern (Js.trim "https://gitlab.com/acme/widget") = true /\
   parseRepoUrl (Js.trim "https://gitlab.com/acme/widget") = None) /\
  (specReferencePattern (Js.trim "   ") = false /\
   run notFoundWorld (requestFor "   ") fullEnv
   = (Returned (fail 400 "Repository URL is required." "MISSING_REPO_URL"), [])).
Proof.
  repeat split.
Qed.

(** C5, amended.  For every input string, with [url] its trimmed form:
    if [url] is [https://github.com/<owner>/<name>] (scheme and host in any
    letter case, owner and name non-empty over alphanumerics, dot,
    underscore, hyphen), alone or followed by one slash, the parser succeeds
    with that owner and name; if the parser succeeds, [url] has that form,
    followed by nothing, by one slash, or by a suffix that starts with a
    hash; and whenever [url] is not empty and the parser fails, the request
    ends with status 400, code [INVALID_REPO_URL] and the invalid-reference
    message, and no network call is made. *)
Theorem parser_accepts_github_references (raw : string) :
  (forall prefix' owner' repo' tail,
     Js.trim raw = prefix' ++ owner' ++ "/" ++ repo' ++ tail ->
     lowerAscii prefix' = "https://github.com/" ->
     isName owner' -> isName repo' ->
     tail = EmptyString \/ tail = "/" ->
     parseRepoUrl (Js.trim raw) = Some (owner', repo')) /\
  (forall owner' repo',
     parseRepoUrl (Js.trim raw) = Some (owner', repo') ->
     exists prefix' tail,
       Js.trim raw = prefix' ++ owner' ++ "/" ++ repo' ++ tail /\
       lowerAscii prefix' = "https://github.com/" /\
       isName owner' /\ isName repo' /\
       (tail = EmptyString \/ tail = "/" \/ exists rest, tail = "#" ++ rest)) /\
  (forall w body env,
     optGet "repoUrl" body = JStr raw ->
     Js.trim raw <> EmptyString ->
     parseRepoUrl (Js.trim raw) = None ->
     run w body env = (Returned (fail 400 invalidUrlMessage "INVALID_REPO_URL"), [])).
Proof.
  split; [|split].
  - intros prefix' owner' repo' tail -> Hp Ho Hr Htail.
    exact (parseRepoUrl_complete prefix' owner' repo' tail Hp Ho Hr Htail).
  - intros owner' repo' H. exact (parseRepoUrl_sound _ _ _ H).
  - intros w body env Hbody Hne Hparse.
    unfold run, generateReadmeRoute, tryCatch, handleRequest, bind, lift, requestedUrl.
    rewrite Hbody. cbn [isNullish callTrim andThen].
    rewrite (whenTruthy_Some _ Hne), Hparse. reflexivity.
Qed.

Lemma parser_accepts_github_references_witness :
  parseRepoUrl (Js.trim "  HTTPS://GitHub.com/acme/widget/ ") = Some ("acme", "widget") /\
  run notFoundWorld (requestFor "not-a-url") fullEnv
  = (Returned (fail 400 invalidUrlMessage "INVALID_REPO_URL"), []).
Proof.
  destruct (parser_accepts_github_references "  HTTPS://GitHub.com/acme/widget/ ")
    as (Haccept & _ & _).
  destruct (parser_accepts_github_references "not-a-url") as (_ & _ & Hreject).
  split.
  - apply (Haccept "HTTPS://GitHub.com/" "acme" "widget" "/"); try reflexivity.
    + split; [discriminate|reflexivity].
    + split; [discriminate|reflexivity].
    + right. reflexivity.
  - apply Hreject; try reflexivity. discriminate.
Defined.

(** ** The assembler on a well-typed narrative *)

Lemma mapTrim_strings (l : list string) :
  mapTrim (map JStr l) = Returned (map Js.trim l).
Proof.
  induction l as [|s l IH]; simpl.
  - reflexivity.
  - rewrite IH. reflexivity.
Qed.

Lemma callTrim_ofOption (o : option string) (fallback : JsVal) (d : string) :
  fallback = JStr d ->
  callTrim (nullish (ofOption o) fallback)
  = Returned (Js.trim (match o with Some s => s | None => d end)).
Proof.
  intros ->. destruct o; reflexivity.
Qed.

(** On a narrative that has its declared type [buildReadme] returns, and
    what it returns is the eight sections of [sectionsOf]. *)
Lemma buildReadme_typed (meta : RepoMetadata) (t : TypedSections) (filled : FilledFlags) :
  buildReadme meta (ofTyped t) filled = Returned (render (sectionsOf meta t)).
Proof.
  unfold buildReadme, readmeParts, render, sectionsOf.
  destruct t as [d f u i]; cbn [ofTyped gen_description gen_features gen_usage
    gen_installation t_description t_features t_usage t_installation].
  assert (Hd : callTrim (nullish (ofOption d)
                 (nullish (ofOption (description meta)) (JStr notSpecified)))
               = Returned (descriptionOf meta
                   {| t_description := d; t_features := f; t_usage := u;
                      t_installation := i |})).
  { unfold descriptionOf; cbn [t_description].
    destruct d as [s|]; [reflexivity|].
    destruct (description meta); reflexivity. }
  rewrite Hd; cbn [andThen].
  assert (Hf : (items <~ asArray (nullish
                    match f with Some l => JArr (map JStr l) | None => JUndefined end
                    (JArr [])) ;;
                trimmed <~ mapTrim items ;;
                Returned (filter (fun s => negb (Js.isEmpty s)) trimmed))
               = Returned (filter (fun s => negb (Js.isEmpty s))
                   (map Js.trim (match f with Some l => l | None => [] end)))).
  { destruct f as [l|]; cbn [nullish isNullish asArray andThen].
    - rewrite mapTrim_strings. reflexivity.
    - reflexivity. }
  rewrite Hf; cbn [andThen].
  rewrite (callTrim_ofOption i _ notSpecified eq_refl),
          (callTrim_ofOption u _ notSpecified eq_refl); cbn [andThen].
  f_equal. f_equal.
  unfold featuresOf, installationOf, usageOf, installationBlock, usageBlock,
    techStackBlock, structureBlock, licenseOf, titleOf, sectionLines;
    cbn [t_features t_installation t_usage map concat fst snd List.app].
  rewrite <- !app_assoc; cbn [List.app].
  assert (Hs : match match tree meta with [] => [notSpecified] | _ => tree meta end with
               | first :: _ =>
                   if negb (String.eqb first notSpecified)
                   then fence ++ LF
                        ++ Js.join LF
                             match tree meta with [] => [notSpecified] | _ => tree meta end
                        ++ LF ++ fence
                   else notSpecified
               | [] => notSpecified
               end
               = match tree meta with
                 | [] => notSpecified
                 | first :: _ =>
                     if negb (String.eqb first notSpecified)
                     then fence ++ LF ++ Js.join LF (tree meta) ++ LF ++ fence
                     else notSpecified
                 end).
  { destruct (tree meta) as [|p ps]; reflexivity. }
  rewrite Hs. reflexivity.
Qed.


(** The fallbacks of the sections the narrative does not provide: an
    omitted description falls back to the trimmed description of the
    metadata, and to the placeholder when there is none; omitted or empty
    features give one placeholder bullet; an omitted usage gives the bare
    placeholder; no languages give one placeholder bullet, an empty tree the
    bare placeholder, no license the placeholder. *)
Theorem omitted_sections_fall_back
    (meta : RepoMetadata) (t : TypedSections) (filled : FilledFlags) :
  exists title description' features installation' usage' tech structure licence,
    buildReadme meta (ofTyped t) filled
    = Returned (render
        [ (title, []);
          ("## Description", [description']);
          ("## Features", features);
          ("## Installation Guide", [installation']);
          ("## Usage", [usage']);
          ("## Tech Stack", [tech]);
          ("## Project Structure", [structure]);
          ("## License Information", [licence]) ]) /\
    (t_description t = None -> description meta = None -> description' = notSpecified) /\
    (forall d, t_description t = None -> description meta = Some d ->
               description' = Js.trim d) /\
    (t_features t = None \/ t_features t = Some [] -> features = ["- Not specified."]) /\
    (t_usage t = None -> usage' = notSpecified) /\
    (languages meta = [] -> tech = "- Not specified.") /\
    (tree meta = [] -> structure = notSpecified) /\
    (license meta = None -> licence = notSpecified).
Proof.
  do 8 eexists. split; [apply buildReadme_typed|].
  unfold descriptionOf, featuresOf, usageBlock, usageOf, techStackBlock,
    structureBlock, licenseOf.
  repeat split.
  - intros -> ->. reflexivity.
  - intros d -> ->. reflexivity.
  - intros [-> | ->]; reflexivity.
  - intros ->. reflexivity.
  - intros ->. reflexivity.
  - intros ->. reflexivity.
  - intros ->. reflexivity.
Qed.


(** C9.  Fencing is applied at most once.  For every metadata record and
    every well-typed narrative the document is the eight sections, where:
    an installation text that already contains a fence marker is rendered
    as it is (trimmed), with no fence added; a usage text that contains a
    fence marker is rendered as it is; a usage text that equals the literal
    [Not specified.], and an omitted usage, are rendered as that literal
    without a fence; any other usage text is wrapped in exactly one fence. *)
Theorem fencing_applied_at_most_once
    (meta : RepoMetadata) (t : TypedSections) (filled : FilledFlags) :
  exists title description' features installation' usage' tech structure licence,
    buildReadme meta (ofTyped t) filled
    = Returned (render
        [ (title, []);
          ("## Description", [description']);
          ("## Features", features);
          ("## Installation Guide", [installation']);
          ("## Usage", [usage']);
          ("## Tech Stack", [tech]);
          ("## Project Structure", [structure]);
          ("## License Information", [licence]) ]) /\
    (forall s, t_installation t = Some s -> Js.includes fence s = true ->
               installation' = Js.trim s) /\
    (forall s, t_usage t = Some s -> Js.includes fence s = true ->
               usage' = Js.trim s) /\
    (forall s, t_usage t = Some s -> Js.trim s = notSpecified ->
               usage' = notSpecified) /\
    (t_usage t = None -> usage' = notSpecified) /\
    (forall s, t_usage t = Some s -> Js.includes fence s = false ->
               Js.trim s <> notSpecified ->
               usage' = fence ++ LF ++ Js.trim s ++ LF ++ fence).
Proof.
  do 8 eexists. split; [apply buildReadme_typed|].
  unfold installationBlock, usageBlock, installationOf, usageOf.
  repeat split.
  - intros s -> Hs. rewrite includes_fence_trim, Hs. reflexivity.
  - intros s -> Hs. rewrite includes_fence_trim, Hs. reflexivity.
  - intros s -> Hs. rewrite Hs. reflexivity.
  - intros ->. reflexivity.
  - intros s -> Hs Hne. rewrite includes_fence_trim, Hs.
    apply String.eqb_neq in Hne. rewrite Hne. reflexivity.
Qed.

Lemma fencing_applied_at_most_once_witness :
  exists title description' features installation' usage' tech structure licence,
    buildReadme widgetMeta (ofTyped fencedNarrative) noFlags
    = Returned (render
        [ (title, []);
          ("## Description", [description']);
          ("## Features", features);
          ("## Installation Guide", [installation']);
          ("## Usage", [usage']);
          ("## Tech Stack", [tech]);
          ("## Project Structure", [structure]);
          ("## License Information", [licence]) ]) /\
    installation' = "```sh" ++ LF ++ "npm install" ++ LF ++ "```" /\
    usage' = "```" ++ LF ++ "widget run" ++ LF ++ "```".
Proof.
  destruct (fencing_applied_at_most_once widgetMeta fencedNarrative noFlags)
    as (title & d & f & i & u & tech & st & lic & Hdoc & Hi & _ & _ & _ & Hu).
  exists title, d, f, i, u, tech, st, lic.
  split; [exact Hdoc|]. split.
  - exact (Hi _ eq_refl eq_refl).
  - refine (Hu "widget run" eq_refl eq_refl _). discriminate.
Defined.

(** C1 (the code departs from the claim).  Whatever the metadata, a
    narrative whose description is blank gives a document whose Description
    section is the empty string: the section is present but empty. *)
Theorem blank_description_renders_an_empty_section
    (meta : RepoMetadata) (t : TypedSections) (filled : FilledFlags) (s : string) :
  t_description t = Some s ->
  Js.trim s = EmptyString ->
  exists rest,
    buildReadme meta (ofTyped t) filled
    = Returned (render (("# " ++ titleOf meta, [])
                        :: ("## Description", [EmptyString]) :: rest)).
Proof.
  intros Hd Hs. eexists. rewrite buildReadme_typed. unfold sectionsOf, descriptionOf.
  rewrite Hd, Hs. reflexivity.
Qed.

Lemma blank_description_renders_an_empty_section_witness :
  exists rest,
    buildReadme widgetMeta (ofTyped blankDescription) noFlags
    = Returned (render (("# widget", []) :: ("## Description", [EmptyString]) :: rest)).
Proof.
  exact (blank_description_renders_an_empty_section widgetMeta blankDescription
           noFlags "  " eq_refl eq_refl).
Defined.

(** C2 (the code departs from the claim).  Whatever the metadata, a
    narrative with no installation text gives a document whose Installation
    Guide section is the placeholder inside a [bash] fence, not the literal
    placeholder. *)
Theorem omitted_installation_renders_a_fenced_placeholder
    (meta : RepoMetadata) (t : TypedSections) (filled : FilledFlags) :
  t_installation t = None ->
  exists title description' features usage' tech structure licence,
    buildReadme meta (ofTyped t) filled
    = Returned (render
        [ (title, []);
          ("## Description", [description']);
          ("## Features", features);
          ("## Installation Guide", ["```bash" ++ LF ++ "Not specified." ++ LF ++ "```"]);
          ("## Usage", [usage']);
          ("## Tech Stack", [tech]);
          ("## Project Structure", [structure]);
          ("## License Information", [licence]) ]).
Proof.
  intros Hi. do 7 eexists. rewrite buildReadme_typed.
  unfold sectionsOf, installationOf. rewrite Hi. reflexivity.
Qed.

Lemma omitted_installation_renders_a_fenced_placeholder_witness :
  exists title description' features usage' tech structure licence,
    buildReadme widgetMeta (ofTyped noNarrative) noFlags
    = Returned (render
        [ (title, []);
          ("## Description", [description']);
          ("## Features", features);
          ("## Installation Guide", ["```bash" ++ LF ++ "Not specified." ++ LF ++ "```"]);
          ("## Usage", [usage']);
          ("## Tech Stack", [tech]);
          ("## Project Structure", [structure]);
          ("## License Information", [licence]) ]).
Proof.
  exact (omitted_installation_renders_a_fenced_placeholder widgetMeta noNarrative
           noFlags eq_refl).
Defined.

(** ** The checks of the route *)

Lemma handleRequest_reaches (body : JsVal) (env : ProcessEnv)
    (owner' repo' token : string) (w : World) (tr : Trace) :
  reachesFetch body env owner' repo' token ->
  handleRequest body env w tr
  = produceReadme owner' repo' token (GEMINI_API_KEY env)
      (initialErrors (GEMINI_API_KEY env)) w tr.
Proof.
  intros (url & Hreq & Hne & Hparse & Htoken).
  unfold handleRequest, bind, lift. rewrite Hreq.
  rewrite (whenTruthy_Some url Hne), Hparse, Htoken. reflexivity.
Qed.

Lemma route_of_handled (body : JsVal) (env : ProcessEnv) (w : World) (tr tr' : Trace)
    (reply : HttpReply) :
  handleRequest body env w tr = (Returned reply, tr') ->
  generateReadmeRoute body env w tr = (Returned reply, tr').
Proof.
  intros H. unfold generateReadmeRoute, tryCatch. rewrite H. reflexivity.
Qed.

Lemma route_of_thrown (body : JsVal) (env : ProcessEnv) (w : World) (tr tr' : Trace)
    (e : JsError) :
  handleRequest body env w tr = (Thrown e, tr') ->
  generateReadmeRoute body env w tr
  = (Returned (fail 500 "Unexpected server error." "INTERNAL_ERROR"), tr').
Proof.
  intros H. unfold generateReadmeRoute, tryCatch. rewrite H. reflexivity.
Qed.

Lemma produceReadme_fetch_thrown (owner' repo' token : string) (key : option string)
    (errors0 : list ApiError) (w : World) (tr tr' : Trace) (e : JsError) :
  fetchRepoMetadata owner' repo' token w tr = (Thrown e, tr') ->
  produceReadme owner' repo' token key errors0 w tr
  = (Returned (fail 502 (Js.slice0 500 ("GitHub API error: " ++ message e))
                 "GITHUB_API_ERROR"), tr').
Proof.
  intros H. unfold produceReadme, bind, tryCatch. rewrite H. reflexivity.
Qed.

Lemma produceReadme_fetched (owner' repo' token : string) (key : option string)
    (errors0 : list ApiError) (w : World) (tr tr' : Trace) (meta : RepoMetadata) :
  fetchRepoMetadata owner' repo' token w tr = (Returned meta, tr') ->
  produceReadme owner' repo' token key errors0 w tr
  = (narrated <- narrativeStage key meta errors0 ;;
     lift (assembleReply meta (fst narrated) (snd narrated))) w tr'.
Proof.
  intros H. unfold produceReadme at 1, bind at 1, tryCatch. unfold bind at 1.
  rewrite H. reflexivity.
Qed.

Lemma widgetRequest_reaches :
  reachesFetch widgetRequest fullEnv "acme" "widget" "ghp_token".
Proof.
  exists "https://github.com/acme/widget". repeat split; try reflexivity. discriminate.
Qed.

(** C6, as stated, fails: with no hosting-provider credential and a
    reference that is not a repository URL, the result is the input error
    [INVALID_REPO_URL], not the missing-credential error. *)
Lemma invalid_reference_reported_before_missing_token :
  run notFoundWorld (requestFor "not-a-url") noTokenEnv
  = (Returned (fail 400 invalidUrlMessage "INVALID_REPO_URL"), []).
Proof.
  reflexivity.
Qed.

(** C6, amended.  The reference is checked first.  For every request
    issued with no hosting-provider credential (unset or empty): when the
    reference is valid the result is the fatal error [MISSING_GITHUB_TOKEN]
    with status 500, which is not the upstream error, and no call is made;
    when the reference is missing or invalid the input error with status 400
    is the result instead. *)
Theorem missing_token_is_fatal_once_the_reference_is_valid
    (w : World) (body : JsVal) (env : ProcessEnv) :
  whenTruthy (GITHUB_TOKEN env) = None ->
  (forall url owner' repo',
     requestedUrl body = Returned (Some url) ->
     url <> EmptyString ->
     parseRepoUrl url = Some (owner', repo') ->
     run w body env
     = (Returned (fail 500 "Server missing GITHUB_TOKEN environment variable."
                    "MISSING_GITHUB_TOKEN"), [])) /\
  (forall url,
     requestedUrl body = Returned (Some url) ->
     url <> EmptyString ->
     parseRepoUrl url = None ->
     run w body env = (Returned (fail 400 invalidUrlMessage "INVALID_REPO_URL"), [])) /\
  (forall repoUrl,
     requestedUrl body = Returned repoUrl ->
     whenTruthy repoUrl = None ->
     run w body env
     = (Returned (fail 400 "Repository URL is required." "MISSING_REPO_URL"), [])).
Proof.
  intros Htoken. unfold run, generateReadmeRoute, tryCatch, handleRequest, bind, lift.
  repeat split.
  - intros url owner' repo' -> Hne Hparse.
    rewrite (whenTruthy_Some url Hne), Hparse, Htoken. reflexivity.
  - intros url -> Hne Hparse.
    rewrite (whenTruthy_Some url Hne), Hparse. reflexivity.
  - intros repoUrl -> Hnone. rewrite Hnone. reflexivity.
Qed.

Lemma missing_token_is_fatal_once_the_reference_is_valid_witness :
  run notFoundWorld widgetRequest noTokenEnv
  = (Returned (fail 500 "Server missing GITHUB_TOKEN environment variable."
                 "MISSING_GITHUB_TOKEN"), []).
Proof.
  refine (proj1 (missing_token_is_fatal_once_the_reference_is_valid
                   notFoundWorld widgetRequest noTokenEnv eq_refl)
            "https://github.com/acme/widget" "acme" "widget" eq_refl _ eq_refl).
  discriminate.
Defined.

(** ** The metadata fetcher *)

Lemma fetchJson_run {T : Type}
    (endpoint : World -> string -> Headers -> outcome (Response T))
    (input : string) (headers : Headers) (w : World) (tr : Trace) :
  fetchJson endpoint input headers w tr
  = (jsonOf (endpoint w input headers), (tr ++ [Get input headers])%list).
Proof.
  unfold fetchJson, bind, fetch, jsonOf.
  destruct (endpoint w input headers) as [res|e]; [|reflexivity].
  destruct (negb (ok res)); reflexivity.
Qed.

Lemma jsonOf_notOk {T : Type} (answer : outcome (Response T)) :
  notOk answer -> exists e, jsonOf answer = Thrown e.
Proof.
  intros (res & -> & Hok). unfold jsonOf. rewrite Hok. eexists. reflexivity.
Qed.

Lemma fetchRepoMetadata_run (owner' repo' token : string) (w : World) (tr : Trace) :
  let headers := githubHeaders token in
  let first := Get (repoInfoUrl owner' repo') headers in
  let second := Get (languagesUrl owner' repo') headers in
  fetchRepoMetadata owner' repo' token w tr
  = match jsonOf (repoEndpoint w (repoInfoUrl owner' repo') headers) with
    | Thrown e => (Thrown e, (tr ++ [first])%list)
    | Returned repoData =>
        match jsonOf (languagesEndpoint w (languagesUrl owner' repo') headers) with
        | Thrown e => (Thrown e, (tr ++ [first; second])%list)
        | Returned langsData =>
            let third := Get (treeUrl owner' repo' (default_branch repoData)) headers in
            match jsonOf (treeEndpoint w (treeUrl owner' repo' (default_branch repoData))
                            headers) with
            | Thrown e => (Thrown e, (tr ++ [first; second; third])%list)
            | Returned treeData =>
                (Returned (metadataOf owner' repo' repoData langsData treeData),
                 (tr ++ [first; second; third])%list)
            end
        end
    end.
Proof.
  cbv zeta. unfold fetchRepoMetadata.
  change ("https://api.github.com/repos/" ++ owner' ++ "/" ++ repo')
    with (repoInfoUrl owner' repo').
  unfold bind at 1. rewrite fetchJson_run.
  destruct (jsonOf (repoEndpoint w _ _)) as [repoData|e]; [|reflexivity].
  unfold bind at 1. rewrite fetchJson_run.
  change (repoInfoUrl owner' repo' ++ "/languages") with (languagesUrl owner' repo').
  rewrite <- app_assoc; cbn [List.app].
  destruct (jsonOf (languagesEndpoint w _ _)) as [langsData|e]; [|reflexivity].
  unfold bind at 1. rewrite fetchJson_run.
  change (repoInfoUrl owner' repo' ++ "/git/trees/"
          ++ encodeURIComponent (default_branch repoData) ++ "?recursive=1")
    with (treeUrl owner' repo' (default_branch repoData)).
  rewrite <- app_assoc; cbn [List.app].
  destruct (jsonOf (treeEndpoint w _ _)) as [treeData|e]; reflexivity.
Qed.

Lemma run_fetch_thrown (w : World) (body : JsVal) (env : ProcessEnv)
    (owner' repo' token : string) (e : JsError) (tr : Trace) :
  reachesFetch body env owner' repo' token ->
  fetchRepoMetadata owner' repo' token w [] = (Thrown e, tr) ->
  run w body env
  = (Returned (fail 502 (Js.slice0 500 ("GitHub API error: " ++ message e))
                 "GITHUB_API_ERROR"), tr).
Proof.
  intros Hreach Hfetch. unfold run. apply route_of_handled.
  rewrite (handleRequest_reaches _ _ _ _ _ _ _ Hreach).
  apply produceReadme_fetch_thrown. exact Hfetch.
Qed.

Lemma fetchRepoMetadata_fails (w : World) (owner' repo' token : string) :
  upstreamCallFails w owner' repo' token ->
  exists e tr,
    fetchRepoMetadata owner' repo' token w [] = (Thrown e, tr) /\
    forallb isGet tr = true.
Proof.
  intros Hfail. rewrite fetchRepoMetadata_run. cbv zeta.
  destruct Hfail as [Hrepo | Hlangs | res data Hres Hok Hjson Htree].
  - destruct (jsonOf_notOk _ Hrepo) as [e ->]. do 2 eexists. split; reflexivity.
  - destruct (jsonOf (repoEndpoint w _ _)) as [repoData|e].
    + destruct (jsonOf_notOk _ Hlangs) as [e ->]. do 2 eexists. split; reflexivity.
    + do 2 eexists. split; reflexivity.
  - rewrite Hres. unfold jsonOf at 1. rewrite Hok. cbn [negb]. rewrite Hjson.
    destruct (jsonOf (languagesEndpoint w _ _)) as [langsData|e].
    + destruct (jsonOf_notOk _ Htree) as [e ->]. do 2 eexists. split; reflexivity.
    + do 2 eexists. split; reflexivity.
Qed.

Lemma healthy_fetch (repoData : RepoData) (gemini : outcome (Response JsVal))
    (parse : JsVal -> outcome JsVal) :
  default_branch repoData = "main" ->
  fetchRepoMetadata "acme" "widget" "ghp_token" (worldWith repoData gemini parse) []
  = (Returned (metadataOf "acme" "widget" repoData widgetLanguages widgetTree),
     githubTrace).
Proof.
  intros Hb. rewrite fetchRepoMetadata_run. cbv zeta. cbn [worldWith repoEndpoint
    languagesEndpoint treeEndpoint]. unfold answer, jsonOf, ok; cbn [status json negb].
  cbn [N.leb N.compare Pos.compare Pos.compare_cont andb negb].
  unfold githubTrace. rewrite Hb. reflexivity.
Qed.

Lemma notFoundWorld_fails : upstreamCallFails notFoundWorld "acme" "widget" "ghp_token".
Proof.
  apply RepoInfoFails. eexists. split; reflexivity.
Qed.

(** C7.  Metadata fetching is all-or-nothing.  When a request gets as far as
    the fetch and any one of the three upstream calls (repository, languages,
    tree of the default branch) is answered with a non-success response,
    [fetchRepoMetadata] throws, so no metadata record exists, and the
    request ends with status 502 and code [GITHUB_API_ERROR]: a failure
    body, no document.  Only hosting-provider calls were issued. *)
Theorem metadata_is_all_or_nothing (w : World) (body : JsVal) (env : ProcessEnv)
    (owner' repo' token : string) :
  reachesFetch body env owner' repo' token ->
  upstreamCallFails w owner' repo' token ->
  exists e tr,
    fetchRepoMetadata owner' repo' token w [] = (Thrown e, tr) /\
    run w body env
    = (Returned (fail 502 (Js.slice0 500 ("GitHub API error: " ++ message e))
                   "GITHUB_API_ERROR"), tr) /\
    forallb isGet tr = true.
Proof.
  intros Hreach Hfail.
  destruct (fetchRepoMetadata_fails w owner' repo' token Hfail) as (e & tr & Hfetch & Hget).
  exists e, tr. repeat split; try assumption.
  exact (run_fetch_thrown w body env owner' repo' token e tr Hreach Hfetch).
Qed.

Lemma metadata_is_all_or_nothing_witness :
  exists e tr,
    fetchRepoMetadata "acme" "widget" "ghp_token" notFoundWorld [] = (Thrown e, tr) /\
    run notFoundWorld widgetRequest fullEnv
    = (Returned (fail 502 (Js.slice0 500 ("GitHub API error: " ++ message e))
                   "GITHUB_API_ERROR"), tr) /\
    forallb isGet tr = true.
Proof.
  exact (metadata_is_all_or_nothing notFoundWorld widgetRequest fullEnv
           "acme" "widget" "ghp_token" widgetRequest_reaches notFoundWorld_fails).
Defined.

(** ** The narrative stage *)

Lemma callGemini_run (key : string) (meta : RepoMetadata) (w : World) (tr : Trace) :
  callGemini key meta w tr
  = (sectionsOfAnswer w (geminiAnswer w key meta),
     (tr ++ [geminiRequest key meta])%list).
Proof.
  unfold callGemini, bind, fetch, sectionsOfAnswer, geminiAnswer, geminiRequest,
    geminiHeaders.
  destruct (geminiEndpoint w _ _ _) as [res|e]; [|reflexivity].
  destruct (negb (ok res)); [reflexivity|].
  unfold lift, ask. destruct (json res) as [data|e]; [|reflexivity].
  destruct (sectionsOfReply _ _); reflexivity.
Qed.

Lemma narrativeStage_run (geminiKey : option string) (meta : RepoMetadata)
    (errors0 : list ApiError) (w : World) (tr : Trace) :
  narrativeStage geminiKey meta errors0 w tr
  = match whenTruthy geminiKey with
    | None => (Returned (noSections, errors0), tr)
    | Some key =>
        (Returned
           match sectionsOfAnswer w (geminiAnswer w key meta) with
           | Returned g => (g, errors0)
           | Thrown e => (noSections, (errors0 ++ [geminiError e])%list)
           end,
         (tr ++ [geminiRequest key meta])%list)
    end.
Proof.
  unfold narrativeStage. destruct (whenTruthy geminiKey) as [key|]; [|reflexivity].
  unfold tryCatch, bind. rewrite callGemini_run.
  destruct (sectionsOfAnswer _ _); reflexivity.
Qed.

Lemma sectionsOfAnswer_fails (w : World) (key : string) (meta : RepoMetadata) :
  generationFails w key meta ->
  sectionsOfAnswer w (geminiAnswer w key meta) = Returned noSections \/
  exists e, sectionsOfAnswer w (geminiAnswer w key meta) = Thrown e.
Proof.
  intros [e H | (res & H & Hok) | res e H Hok Hjson | res data e H Hok Hjson Hparse];
    rewrite H; unfold sectionsOfAnswer; try rewrite Hok; cbn [negb];
    try rewrite Hjson.
  - right. eexists. reflexivity.
  - right. eexists. reflexivity.
  - right. eexists. reflexivity.
  - left. unfold sectionsOfReply. rewrite Hparse. reflexivity.
Qed.

(** A description taken over from the metadata leaves the narrative
    well-typed. *)
Lemma adoptDescription_typed (meta : RepoMetadata) (t : TypedSections) :
  exists t', adoptDescription meta (ofTyped t) = ofTyped t'.
Proof.
  unfold adoptDescription.
  destruct (negb (truthy (gen_description (ofTyped t))) && needDescription meta
            && truthyString (description meta)).
  - exists {| t_description := description meta; t_features := t_features t;
              t_usage := t_usage t; t_installation := t_installation t |}.
    reflexivity.
  - exists t. reflexivity.
Qed.

Lemma assembleReply_typed (meta : RepoMetadata) (t : TypedSections)
    (errors1 : list ApiError) :
  exists t' payload,
    adoptDescription meta (ofTyped t) = ofTyped t' /\
    assembleReply meta (ofTyped t) errors1
    = Returned {| reply_status := 200; reply_body := Success payload |} /\
    readme payload = render (sectionsOf meta t') /\
    metadata payload = meta.
Proof.
  destruct (adoptDescription_typed meta t) as [t' Ht'].
  exists t'. unfold assembleReply. rewrite Ht', buildReadme_typed. cbn [andThen].
  eexists. repeat split.
Qed.

Lemma run_assembles (w : World) (body : JsVal) (env : ProcessEnv)
    (owner' repo' token : string) (meta : RepoMetadata) (tr1 : Trace) :
  reachesFetch body env owner' repo' token ->
  fetchRepoMetadata owner' repo' token w [] = (Returned meta, tr1) ->
  handleRequest body env w []
  = (narrated <- narrativeStage (GEMINI_API_KEY env) meta
                   (initialErrors (GEMINI_API_KEY env)) ;;
     lift (assembleReply meta (fst narrated) (snd narrated))) w tr1.
Proof.
  intros Hreach Hfetch.
  rewrite (handleRequest_reaches _ _ _ _ _ _ _ Hreach).
  apply produceReadme_fetched. exact Hfetch.
Qed.

Lemma geminiDownWorld_fails : generationFails geminiDownWorld "gm_key" fetchedWidget.
Proof.
  apply NonSuccess. eexists. split; reflexivity.
Qed.

(** C3.  The narrative stage fails soft.  In every world, for every
    metadata record and credential, the stage returns and never throws; when
    the generative service fails (transport error, non-success response,
    body or text payload that is not JSON) the narrative it returns is the
    empty one; and a request whose metadata was fetched is then answered
    with status 200 and a complete document of that metadata. *)
Theorem narrative_stage_fails_soft (w : World) (geminiKey : option string)
    (meta : RepoMetadata) (errors0 : list ApiError) (tr : Trace) :
  (exists generated errors1 tr',
     narrativeStage geminiKey meta errors0 w tr = (Returned (generated, errors1), tr')) /\
  (forall key,
     whenTruthy geminiKey = Some key ->
     generationFails w key meta ->
     exists errors1 tr',
       narrativeStage geminiKey meta errors0 w tr
       = (Returned (noSections, errors1), tr')) /\
  (forall body env owner' repo' token key tr1,
     reachesFetch body env owner' repo' token ->
     fetchRepoMetadata owner' repo' token w [] = (Returned meta, tr1) ->
     whenTruthy (GEMINI_API_KEY env) = Some key ->
     generationFails w key meta ->
     exists payload tr' t,
       run w body env
       = (Returned {| reply_status := 200; reply_body := Success payload |}, tr') /\
       metadata payload = meta /\
       readme payload = render (sectionsOf meta t)).
Proof.
  split; [|split].
  - rewrite narrativeStage_run.
    destruct (whenTruthy geminiKey) as [key|]; [|do 3 eexists; reflexivity].
    destruct (sectionsOfAnswer w (geminiAnswer w key meta)); do 3 eexists; reflexivity.
  - intros key Hkey Hfail. rewrite narrativeStage_run, Hkey.
    destruct (sectionsOfAnswer_fails w key meta Hfail) as [-> | [e ->]];
      do 2 eexists; reflexivity.
  - intros body env owner' repo' token key tr1 Hreach Hfetch Hkey Hfail.
    unfold run.
    assert (Hgen : exists errors1,
               narrativeStage (GEMINI_API_KEY env) meta
                 (initialErrors (GEMINI_API_KEY env)) w tr1
               = (Returned (ofTyped noNarrative, errors1),
                  (tr1 ++ [geminiRequest key meta])%list)).
    { rewrite narrativeStage_run, Hkey.
      destruct (sectionsOfAnswer_fails w key meta Hfail) as [-> | [e ->]];
        eexists; reflexivity. }
    destruct Hgen as [errors1 Hgen].
    destruct (assembleReply_typed meta noNarrative errors1)
      as (t' & payload & _ & Hreply & Hreadme & Hmeta).
    exists payload, (tr1 ++ [geminiRequest key meta])%list, t'.
    split; [|split; assumption].
    apply route_of_handled.
    rewrite (run_assembles w body env owner' repo' token meta tr1 Hreach Hfetch).
    unfold bind. rewrite Hgen. cbn [fst snd]. unfold lift. rewrite Hreply. reflexivity.
Qed.

Lemma narrative_stage_fails_soft_witness :
  exists payload tr' t,
    run geminiDownWorld widgetRequest fullEnv
    = (Returned {| reply_status := 200; reply_body := Success payload |}, tr') /\
    metadata payload = fetchedWidget /\
    readme payload = render (sectionsOf fetchedWidget t).
Proof.
  refine (proj2 (proj2 (narrative_stage_fails_soft geminiDownWorld None fetchedWidget [] []))
            widgetRequest fullEnv "acme" "widget" "ghp_token" "gm_key" githubTrace
            widgetRequest_reaches _ eq_refl geminiDownWorld_fails).
  apply healthy_fetch. reflexivity.
Defined.

(** ** Replies of the wrong shape *)

Lemma mapTrim_nonString (items : list JsVal) :
  hasNonString items = true -> exists e, mapTrim items = Thrown e.
Proof.
  induction items as [|v items IH]; [discriminate|].
  unfold hasNonString; cbn [existsb mapTrim]. intros H.
  destruct v; cbn [callTrim andThen]; try (eexists; reflexivity).
  cbn [isString negb orb] in H. destruct (IH H) as [e ->]. eexists. reflexivity.
Qed.

Lemma buildReadme_nonString_feature (meta : RepoMetadata) (g : GeneratedSections)
    (filled : FilledFlags) (items : list JsVal) :
  gen_features g = JArr items ->
  hasNonString items = true ->
  exists e, buildReadme meta g filled = Thrown e.
Proof.
  intros Hf Hitems. unfold buildReadme, readmeParts.
  destruct (callTrim _) as [d|e]; cbn [andThen]; [|eexists; reflexivity].
  rewrite Hf. cbn [nullish isNullish asArray andThen].
  destruct (mapTrim_nonString items Hitems) as [e ->]. eexists. reflexivity.
Qed.

Lemma sectionsOfReply_object (parse : JsVal -> outcome JsVal) (text' : JsVal)
    (props : list (string * JsVal)) :
  parse text' = Returned (JObj props) ->
  sectionsOfReply parse text'
  = Returned {| gen_description := lookup "description" props;
                gen_features :=
                  if isArray (lookup "features" props) then lookup "features" props
                  else JUndefined;
                gen_usage := lookup "usage" props;
                gen_installation := lookup "installation" props |}.
Proof.
  intros H. unfold sectionsOfReply. rewrite H. reflexivity.
Qed.

(** Whatever else the reply holds, a [features] array with an element that
    is not a string makes the request end in the outer [catch]. *)
Lemma nonString_feature_aborts (w : World) (body : JsVal) (env : ProcessEnv)
    (owner' repo' token key : string) (meta : RepoMetadata) (tr1 : Trace)
    (res : Response JsVal) (data parsed : JsVal) (items : list JsVal) :
  reachesFetch body env owner' repo' token ->
  fetchRepoMetadata owner' repo' token w [] = (Returned meta, tr1) ->
  whenTruthy (GEMINI_API_KEY env) = Some key ->
  geminiAnswer w key meta = Returned res ->
  ok res = true ->
  json res = Returned data ->
  JSON_parse w (replyText data) = Returned parsed ->
  optGet "features" parsed = JArr items ->
  hasNonString items = true ->
  run w body env
  = (Returned (fail 500 "Unexpected server error." "INTERNAL_ERROR"),
     (tr1 ++ [geminiRequest key meta])%list).
Proof.
  intros Hreach Hfetch Hkey Hans Hok Hjson Hparse Hfeat Hitems.
  destruct parsed as [ | | | | | |props]; try discriminate Hfeat.
  cbn [optGet] in Hfeat.
  assert (Hthrow : exists e,
             handleRequest body env w [] = (Thrown e, (tr1 ++ [geminiRequest key meta])%list)).
  { rewrite (run_assembles w body env owner' repo' token meta tr1 Hreach Hfetch).
    unfold bind. rewrite narrativeStage_run, Hkey, Hans.
    unfold sectionsOfAnswer. rewrite Hok. cbn [negb]. rewrite Hjson.
    rewrite (sectionsOfReply_object _ _ props Hparse), Hfeat. cbn [isArray fst snd].
    unfold lift, assembleReply.
    match goal with
    | |- context [buildReadme meta ?g ?f] =>
        destruct (buildReadme_nonString_feature meta g f items) as [e ->]
    end.
    - unfold adoptDescription.
      match goal with |- context [if ?c then _ else _] => destruct c end; reflexivity.
    - exact Hitems.
    - exists e. reflexivity. }
  destruct Hthrow as [e He]. unfold run.
  exact (route_of_thrown body env w [] _ e He).
Qed.

(** C10.  Some reply of the generative service parses as JSON with a
    [features] array that holds an element that is not a string, and for it
    the element is not dropped and the pipeline does not fail soft: the
    metadata is fetched, the generative service answers with a success, and
    the request ends with status 500 and code [INTERNAL_ERROR], with no
    document. *)
Theorem nonstring_feature_fails_the_whole_request :
  exists w body env meta res data parsed items,
    reachesFetch body env "acme" "widget" "ghp_token" /\
    fetchRepoMetadata "acme" "widget" "ghp_token" w [] = (Returned meta, githubTrace) /\
    geminiAnswer w "gm_key" meta = Returned res /\
    ok res = true /\
    json res = Returned data /\
    JSON_parse w (replyText data) = Returned parsed /\
    optGet "features" parsed = JArr items /\
    hasNonString items = true /\
    run w body env
    = (Returned (fail 500 "Unexpected server error." "INTERNAL_ERROR"),
       (githubTrace ++ [geminiRequest "gm_key" meta])%list).
Proof.
  exists (worldReplying mixedFeaturesPayload mixedFeatures), widgetRequest, fullEnv,
    fetchedWidget.
  do 4 eexists.
  assert (Hfetch : fetchRepoMetadata "acme" "widget" "ghp_token"
                     (worldReplying mixedFeaturesPayload mixedFeatures) []
                   = (Returned fetchedWidget, githubTrace))
    by (apply healthy_fetch; reflexivity).
  split; [exact widgetRequest_reaches|].
  split; [exact Hfetch|].
  split; [reflexivity|]. split; [reflexivity|]. split; [reflexivity|].
  split; [reflexivity|]. split; [reflexivity|]. split; [reflexivity|].
  eapply nonString_feature_aborts; try reflexivity.
  - exact widgetRequest_reaches.
  - exact Hfetch.
Qed.

(** C4 (the code departs from the claim).  A reply whose [description] is
    the number 5 and whose [usage] is a string: [callGemini] returns the
    number under [description], it is not dropped; the request then ends
    with [INTERNAL_ERROR] instead of a document that keeps the usage text. *)
Theorem wrong_shape_description_is_kept :
  callGemini "gm_key" fetchedWidget
    (worldReplying numericDescriptionPayload numericDescription) []
  = (Returned {| gen_description := JNum 5%float;
                 gen_features := JUndefined;
                 gen_usage := JStr "run it";
                 gen_installation := JUndefined |},
     [geminiRequest "gm_key" fetchedWidget]) /\
  run (worldReplying numericDescriptionPayload numericDescription) widgetRequest fullEnv
  = (Returned (fail 500 "Unexpected server error." "INTERNAL_ERROR"),
     (githubTrace ++ [geminiRequest "gm_key" fetchedWidget])%list).
Proof.
  split; reflexivity.
Qed.

(** ** The flags of the response *)

(** C8 (the code departs from the claim).  With no generative-service key
    and a repository whose own description is the three letters [abc], the
    response is a success, only the three hosting-provider calls were made,
    and yet the flag of the description says it was filled. *)
Theorem description_flag_set_without_generation :
  exists payload,
    run silentGeminiWorld widgetRequest noGeminiEnv
    = (Returned {| reply_status := 200; reply_body := Success payload |}, githubTrace) /\
    filled_description (filledWithGemini payload) = true /\
    forallb isGet githubTrace = true.
Proof.
  eexists. split; [reflexivity|]. split; reflexivity.
Qed.

(** ** The scenarios of the specification, run on the model *)

(** Scenario 1: every upstream call succeeds, the repository describes
    itself as [A widget.] and the narrative has no description. *)
Example scenario_metadata_description_is_used :
  buildReadme widgetMeta (ofTyped noNarrative) noFlags
  = Returned (render
      [ ("# widget", []);
        ("## Description", ["A widget."]);
        ("## Features", ["- Not specified."]);
        ("## Installation Guide", ["```bash" ++ LF ++ "Not specified." ++ LF ++ "```"]);
        ("## Usage", ["Not specified."]);
        ("## Tech Stack", ["- TypeScript"]);
        ("## Project Structure",
         ["```" ++ LF ++ "src" ++ LF ++ "src/index.ts" ++ LF ++ "```"]);
        ("## License Information", ["MIT"]) ]).
Proof. reflexivity. Qed.

(** Scenario 2: an input that is not a URL is refused before any call. *)
Example scenario_not_a_url :
  run notFoundWorld (requestFor "not-a-url") fullEnv
  = (Returned (fail 400 invalidUrlMessage "INVALID_REPO_URL"), []).
Proof. reflexivity. Qed.

(** Scenario 3: the hosting provider answers 404. *)
Example scenario_repository_not_found :
  run notFoundWorld widgetRequest fullEnv
  = (Returned (fail 502 "GitHub API error: HTTP 404 Not Found: Not Found"
                 "GITHUB_API_ERROR"),
     [Get (repoInfoUrl "acme" "widget") (githubHeaders "ghp_token")]).
Proof. reflexivity. Qed.

(** Scenario 4: no generative-service key; the document is produced and the
    only warning is the missing key. *)
Example scenario_no_generative_key :
  exists payload,
    run (worldReplying mixedFeaturesPayload mixedFeatures) widgetRequest noGeminiEnv
    = (Returned {| reply_status := 200; reply_body := Success payload |}, githubTrace) /\
    readme payload = render (sectionsOf fetchedWidget noNarrative) /\
    fileName payload = "widget-README.md" /\
    errors payload
    = Some [ {| err_code := "MISSING_GEMINI_API_KEY";
                err_message :=
                  "Server missing GEMINI_API_KEY; generated content may be limited." |} ].
Proof. eexists. repeat split. Qed.

(** Scenario 5: no languages and an empty tree. *)
Example scenario_no_languages_no_tree :
  buildReadme bareMeta (ofTyped noNarrative) noFlags
  = Returned (render
      [ ("# empty", []);
        ("## Description", ["Not specified."]);
        ("## Features", ["- Not specified."]);
        ("## Installation Guide", ["```bash" ++ LF ++ "Not specified." ++ LF ++ "```"]);
        ("## Usage", ["Not specified."]);
        ("## Tech Stack", ["- Not specified."]);
        ("## Project Structure", ["Not specified."]);
        ("## License Information", ["Not specified."]) ]).
Proof. reflexivity. Qed.

(** The generative service is down: the document is still produced, and the
    failure is recorded as a warning. *)
Example scenario_generative_service_down :
  exists payload,
    run geminiDownWorld widgetRequest fullEnv
    = (Returned {| reply_status := 200; reply_body := Success payload |},
       (githubTrace ++ [geminiRequest "gm_key" fetchedWidget])%list) /\
    readme payload = render (sectionsOf fetchedWidget noNarrative) /\
    errors payload
    = Some [ {| err_code := "GEMINI_API_ERROR";
                err_message := "Gemini API error: Gemini API error 503: overloaded" |} ].
Proof. eexists. repeat split. Qed.

(** A reply with an empty description, for a repository that describes
    itself: the Description section of the response is empty. *)
Example scenario_blank_description_from_the_service :
  exists payload,
    run (worldReplying blankDescriptionPayload blankDescriptionReply) widgetRequest fullEnv
    = (Returned {| reply_status := 200; reply_body := Success payload |},
       (githubTrace ++ [geminiRequest "gm_key" fetchedWidget])%list) /\
    description (metadata payload) = Some "A widget." /\
    readme payload
    = render
        [ ("# widget", []);
          ("## Description", [EmptyString]);
          ("## Features", ["- Not specified."]);
          ("## Installation Guide", ["```bash" ++ LF ++ "Not specified." ++ LF ++ "```"]);
          ("## Usage", ["Not specified."]);
          ("## Tech Stack", ["- TypeScript"]);
          ("## Project Structure",
           ["```" ++ LF ++ "src" ++ LF ++ "src/index.ts" ++ LF ++ "```"]);
          ("## License Information", ["MIT"]) ].
Proof. eexists. repeat split. Qed.

(** * Further properties *)

(** ** The exact language of the parser, and the client's check *)

Lemma append_assoc (a b c : string) : (a ++ b) ++ c = a ++ b ++ c.
Proof.
  induction a as [|x a IH]; cbn [String.append]; [reflexivity|].
  rewrite IH. reflexivity.
Qed.

Lemma append_nil_r (a : string) : a ++ EmptyString = a.
Proof.
  induction a as [|x a IH]; cbn [String.append]; [reflexivity|].
  rewrite IH. reflexivity.
Qed.

Lemma length_append (a b : string) :
  String.length (a ++ b) = (String.length a + String.length b)%nat.
Proof.
  induction a as [|x a IH]; cbn [String.append String.length]; [reflexivity|].
  rewrite IH. reflexivity.
Qed.

Lemma matchesTail_exact (tail : string) :
  matchesTail tail = true <->
  (tail = EmptyString \/ tail = "/" \/ tail = "#" \/
   exists c, isLineTerminator c = false /\ tail = String "#" (String c EmptyString)).
Proof.
  split.
  - destruct tail as [|c [|d [|x y]]]; cbn [matchesTail]; intros H.
    + left. reflexivity.
    + apply orb_prop in H as [H|H]; apply Ascii.eqb_eq in H; subst; auto.
    + apply andb_prop in H as [H1 H2]. apply Ascii.eqb_eq in H1; subst.
      right. right. right. exists d. split; [|reflexivity].
      destruct (isLineTerminator d); [discriminate|reflexivity].
    + discriminate.
  - intros [->|[->|[->|(c & Hc & ->)]]]; try reflexivity.
    cbn [matchesTail]. rewrite Hc. reflexivity.
Qed.

Lemma matchesTail_no_name_char (tail : string) :
  matchesTail tail = true -> startsWithNameChar tail = false.
Proof.
  intros H. apply matchesTail_exact in H.
  destruct H as [->|[->|[->|(c & _ & ->)]]]; reflexivity.
Qed.

(** [parseRepoUrl] accepts exactly the strings
    [https://github.com/<owner>/<repo>] (scheme and host in any letter
    case, owner and repo non-empty runs of letters, digits, dot, underscore
    and hyphen) followed by nothing, one slash, one hash, or one hash and one
    more character that is not a line terminator; it returns that owner and
    that repo. *)
Theorem parseRepoUrl_exact (url owner' repo' : string) :
  parseRepoUrl url = Some (owner', repo') <->
  exists prefix' tail,
    url = prefix' ++ owner' ++ "/" ++ repo' ++ tail /\
    lowerAscii prefix' = "https://github.com/" /\
    isName owner' /\ isName repo' /\
    (tail = EmptyString \/ tail = "/" \/ tail = "#" \/
     exists c, isLineTerminator c = false /\ tail = String "#" (String c EmptyString)).
Proof.
  split.
  - unfold parseRepoUrl. intros H.
    destruct (stripPrefixCI _ url) as [afterHost|] eqn:Hstrip; [|discriminate].
    destruct (stripPrefixCI_inv _ _ _ Hstrip) as (p & -> & Hp).
    destruct (spanName afterHost) as [m1 rest1] eqn:H1.
    destruct (spanName_inv _ _ _ H1) as (-> & Hm1 & _).
    destruct m1 as [|a m1]; [discriminate|].
    destruct rest1 as [|c afterSlash]; [discriminate|].
    destruct (Ascii.eqb_spec c "/") as [->|_]; [|discriminate].
    destruct (spanName afterSlash) as [m2 rest2] eqn:H2.
    destruct (spanName_inv _ _ _ H2) as (-> & Hm2 & _).
    destruct m2 as [|b m2]; [discriminate|].
    destruct (matchesTail rest2) eqn:Htail; [|discriminate].
    inversion H; subst.
    exists p, rest2. repeat split; try assumption; try discriminate.
    apply matchesTail_exact. exact Htail.
  - intros (p & tail & -> & Hp & [Ho Hoc] & [Hr Hrc] & Htail).
    apply matchesTail_exact in Htail. unfold parseRepoUrl.
    rewrite <- Hp, stripPrefixCI_app.
    rewrite (spanName_app owner' ("/" ++ repo' ++ tail) Hoc eq_refl).
    destruct owner' as [|o os]; [contradiction|].
    cbn [String.append]. rewrite Ascii.eqb_refl.
    rewrite (spanName_app repo' tail Hrc (matchesTail_no_name_char _ Htail)).
    destruct repo' as [|r rs]; [contradiction|].
    rewrite Htail. reflexivity.
Qed.

Lemma parseRepoUrl_exact_witness :
  parseRepoUrl "HTTPS://github.com/acme/widget#x" = Some ("acme", "widget").
Proof.
  apply (proj2 (parseRepoUrl_exact "HTTPS://github.com/acme/widget#x" "acme" "widget")).
  exists "HTTPS://github.com/", "#x".
  split; [reflexivity|]. split; [reflexivity|].
  split; [split; [discriminate|reflexivity]|].
  split; [split; [discriminate|reflexivity]|].
  right. right. right. exists "x"%char. split; reflexivity.
Defined.

Lemma matchesClientTail_matchesTail (rest : string) :
  matchesClientTail rest = true -> matchesTail rest = true.
Proof.
  destruct rest as [|c [|d r]]; cbn [matchesClientTail matchesTail]; intros H;
    try discriminate; try reflexivity.
  rewrite H. reflexivity.
Qed.

(** Whatever the client's [validateUrl] lets through, the server's
    [parseRepoUrl] accepts once trimmed; and an input the server accepts
    but the client refuses is one that ends in a hash tail. *)
Theorem client_check_is_stricter_than_the_parser (url : string) :
  (validateUrl url = true ->
   exists owner' repo', parseRepoUrl (Js.trim url) = Some (owner', repo')) /\
  (forall owner' repo',
     parseRepoUrl (Js.trim url) = Some (owner', repo') ->
     validateUrl url = false ->
     exists before tail, Js.trim url = before ++ "#" ++ tail /\ (String.length tail <= 1)%nat).
Proof.
  unfold validateUrl, parseRepoUrl.
  destruct (stripPrefixCI _ (Js.trim url)) as [afterHost|] eqn:Hstrip;
    [|split; [discriminate|intros ? ? H; discriminate H]].
  destruct (stripPrefixCI_inv _ _ _ Hstrip) as (p & Hurl & Hp).
  destruct (spanName afterHost) as [m1 rest1] eqn:H1.
  destruct (spanName_inv _ _ _ H1) as (-> & _ & _).
  destruct m1 as [|a m1]; [split; [discriminate|intros ? ? H; discriminate H]|].
  destruct rest1 as [|c afterSlash]; [split; [discriminate|intros ? ? H; discriminate H]|].
  destruct (Ascii.eqb c "/") eqn:Hc; [|split; [discriminate|intros ? ? H; discriminate H]].
  destruct (spanName afterSlash) as [m2 rest2] eqn:H2.
  destruct (spanName_inv _ _ _ H2) as (-> & _ & _).
  destruct m2 as [|b m2]; [split; [discriminate|intros ? ? H; discriminate H]|].
  split.
  - intros Hclient. rewrite (matchesClientTail_matchesTail _ Hclient).
    do 2 eexists. reflexivity.
  - intros owner' repo' Hparse Hclient.
    destruct (matchesTail rest2) eqn:Htail; [|discriminate].
    rewrite Hurl.
    exists (p ++ String a m1 ++ String c (String b m2)).
    destruct rest2 as [|x [|y [|z r]]]; cbn [matchesClientTail matchesTail] in *;
      try discriminate.
    + rewrite Hclient in Htail. cbn [orb] in Htail. apply Ascii.eqb_eq in Htail; subst.
      exists EmptyString. split; [|auto].
      rewrite !append_assoc. reflexivity.
    + apply andb_prop in Htail as [Hx _]. apply Ascii.eqb_eq in Hx; subst.
      exists (String y EmptyString). split; [|auto].
      rewrite !append_assoc. reflexivity.
Qed.

Lemma client_check_is_stricter_than_the_parser_witness :
  (exists owner' repo',
     parseRepoUrl (Js.trim " https://github.com/acme/widget/ ") = Some (owner', repo')) /\
  (exists before tail,
     Js.trim "https://github.com/acme/widget#x" = before ++ "#" ++ tail /\
     (String.length tail <= 1)%nat).
Proof.
  split.
  - exact (proj1 (client_check_is_stricter_than_the_parser
                    " https://github.com/acme/widget/ ") eq_refl).
  - exact (proj2 (client_check_is_stricter_than_the_parser
                    "https://github.com/acme/widget#x") "acme" "widget" eq_refl eq_refl).
Defined.

(** ** Every way a request can end *)

Lemma narrativeStage_narrated (geminiKey : option string) (meta : RepoMetadata)
    (errors0 : list ApiError) (w : World) (tr : Trace) :
  narrativeStage geminiKey meta errors0 w tr
  = (Returned (narrated w geminiKey meta errors0),
     (tr ++ narrativeTrace geminiKey meta)%list).
Proof.
  rewrite narrativeStage_run. unfold narrated, narrativeTrace.
  destruct (whenTruthy geminiKey) as [key|]; [reflexivity|].
  rewrite app_nil_r. reflexivity.
Qed.

Lemma whenTruthy_inv (o : option string) (url : string) :
  whenTruthy o = Some url -> o = Some url /\ url <> EmptyString.
Proof.
  unfold whenTruthy, truthyString. destruct o as [[|c s]|]; cbn [Js.isEmpty negb];
    intros H; inversion H; subst. split; [reflexivity|discriminate].
Qed.

Lemma run_case (w : World) (body : JsVal) (env : ProcessEnv) :
  RunCase w body env (run w body env).
Proof.
  unfold run, generateReadmeRoute, tryCatch.
  destruct (requestedUrl body) as [repoUrl|e] eqn:Hreq.
  2:{ unfold handleRequest, bind, lift. rewrite Hreq.
      exact (BodyUnreadable w body env e Hreq). }
  destruct (whenTruthy repoUrl) as [url|] eqn:Hurl.
  2:{ unfold handleRequest, bind, lift. rewrite Hreq, Hurl.
      exact (UrlMissing w body env repoUrl Hreq Hurl). }
  destruct (whenTruthy_inv _ _ Hurl) as [-> Hne].
  destruct (parseRepoUrl url) as [[owner' repo']|] eqn:Hparse.
  2:{ unfold handleRequest, bind, lift. rewrite Hreq, Hurl, Hparse.
      exact (UrlInvalid w body env url Hreq Hne Hparse). }
  destruct (whenTruthy (GITHUB_TOKEN env)) as [token|] eqn:Htoken.
  2:{ unfold handleRequest, bind, lift. rewrite Hreq, Hurl, Hparse, Htoken.
      exact (TokenMissing w body env url owner' repo' Hreq Hne Hparse Htoken). }
  assert (Hreach : reachesFetch body env owner' repo' token)
    by (exists url; repeat split; assumption).
  rewrite (handleRequest_reaches _ _ _ _ _ w [] Hreach).
  destruct (fetchRepoMetadata owner' repo' token w []) as [[meta|e] tr] eqn:Hfetch.
  - rewrite (produceReadme_fetched _ _ _ _ _ _ _ _ _ Hfetch).
    unfold bind. rewrite narrativeStage_narrated. unfold lift.
    destruct (assembleReply meta _ _) as [reply|e] eqn:Hasm.
    + exact (Answered w body env owner' repo' token meta tr reply Hreach Hfetch Hasm).
    + exact (AssemblyFailed w body env owner' repo' token meta tr e Hreach Hfetch Hasm).
  - rewrite (produceReadme_fetch_thrown _ _ _ _ _ _ _ _ _ Hfetch).
    exact (UpstreamFailed w body env owner' repo' token e tr Hreach Hfetch).
Qed.

Lemma assembleReply_success (meta : RepoMetadata) (g : GeneratedSections)
    (errors1 : list ApiError) (reply : HttpReply) :
  assembleReply meta g errors1 = Returned reply ->
  exists payload,
    reply = {| reply_status := 200; reply_body := Success payload |} /\
    metadata payload = meta /\
    fileName payload = repo meta ++ "-README.md" /\
    errors payload = match errors1 with [] => None | _ => Some errors1 end /\
    filledWithGemini payload = markFilled (adoptDescription meta g) /\
    buildReadme meta (adoptDescription meta g) (markFilled (adoptDescription meta g))
    = Returned (readme payload).
Proof.
  unfold assembleReply.
  destruct (buildReadme meta _ _) as [doc|e] eqn:Hdoc; cbn [andThen]; intros H;
    inversion H; subst.
  eexists. repeat split.
Qed.

(** The route never throws: whatever the request, the environment and the
    network, it answers, and the answer is either status 200 with a payload
    or one of the five error kinds with its status. *)
Theorem route_always_answers (w : World) (body : JsVal) (env : ProcessEnv) :
  exists reply tr,
    run w body env = (Returned reply, tr) /\
    match reply_body reply with
    | Success _ => reply_status reply = 200%N
    | Failure e => In (reply_status reply, code e) errorKinds
    end.
Proof.
  destruct (run_case w body env); try (do 2 eexists; split; [reflexivity|]).
  - cbn. auto 6.
  - cbn. auto 6.
  - cbn. auto 6.
  - cbn. auto 6.
  - cbn. auto 6.
  - cbn. auto 6.
  - destruct (assembleReply_success _ _ _ _ H1) as (payload & -> & _). reflexivity.
Qed.

(** ** The assembler on any narrative *)

Lemma asStrings_map (items : list JsVal) (l : list string) :
  asStrings items = Some l -> items = map JStr l.
Proof.
  revert l. induction items as [|v items IH]; intros l H.
  - inversion H. reflexivity.
  - destruct v; try discriminate H. cbn [asStrings] in H.
    destruct (asStrings items) as [l'|]; [|discriminate].
    inversion H; subst. rewrite (IH l' eq_refl). reflexivity.
Qed.

Lemma asStrings_None (items : list JsVal) :
  asStrings items = None -> hasNonString items = true.
Proof.
  induction items as [|v items IH]; [discriminate|].
  unfold hasNonString. cbn [existsb].
  destruct v; try reflexivity. cbn [asStrings isString negb orb].
  destruct (asStrings items); [discriminate|]. intros _. exact (IH eq_refl).
Qed.

Lemma nullish_optionalString (v d : JsVal) (o : option string) :
  asOptionalString v = Some o -> nullish v d = nullish (ofOption o) d.
Proof.
  destruct v; intros H; inversion H; reflexivity.
Qed.

Lemma callTrim_not_optionalString (v d : JsVal) :
  asOptionalString v = None -> exists e, callTrim (nullish v d) = Thrown e.
Proof.
  destruct v; intros H; try discriminate H; eexists; reflexivity.
Qed.

Lemma readmeParts_typedOf (meta : RepoMetadata) (g : GeneratedSections)
    (t : TypedSections) :
  typedOf g = Some t -> readmeParts meta g = readmeParts meta (ofTyped t).
Proof.
  unfold typedOf.
  destruct (asOptionalString (gen_description g)) as [d|] eqn:Hd; [|discriminate].
  destruct (asOptionalStrings (gen_features g)) as [f|] eqn:Hf; [|discriminate].
  destruct (asOptionalString (gen_usage g)) as [u|] eqn:Hu; [|discriminate].
  destruct (asOptionalString (gen_installation g)) as [i|] eqn:Hi; [|discriminate].
  intros H. inversion H; subst; clear H.
  unfold readmeParts. cbn [ofTyped gen_description gen_features gen_usage
    gen_installation t_description t_features t_usage t_installation].
  rewrite (nullish_optionalString _ _ d Hd), (nullish_optionalString _ _ u Hu),
    (nullish_optionalString _ _ i Hi).
  assert (Hfeat : nullish (gen_features g) (JArr [])
                  = nullish match f with Some l => JArr (map JStr l) | None => JUndefined end
                      (JArr [])).
  { unfold asOptionalStrings in Hf. destruct (gen_features g) as [ | | | | |items|];
      try discriminate Hf; try (inversion Hf; reflexivity).
    destruct (asStrings items) as [l|] eqn:Hl; [|discriminate].
    inversion Hf; subst. rewrite (asStrings_map _ _ Hl). reflexivity. }
  rewrite Hfeat. reflexivity.
Qed.

Lemma readmeParts_not_typed (meta : RepoMetadata) (g : GeneratedSections) :
  typedOf g = None -> exists e, readmeParts meta g = Thrown e.
Proof.
  unfold typedOf, readmeParts. intros H.
  destruct (asOptionalString (gen_description g)) as [d|] eqn:Hd.
  2:{ destruct (callTrim_not_optionalString _
                  (nullish (ofOption (description meta)) (JStr notSpecified)) Hd)
        as [e ->]. eexists. reflexivity. }
  destruct (callTrim _) as [d'|e]; cbn [andThen]; [|eexists; reflexivity].
  destruct (asOptionalStrings (gen_features g)) as [f|] eqn:Hf.
  2:{ unfold asOptionalStrings in Hf.
      destruct (gen_features g) as [ | | | | |items|]; try discriminate Hf;
        cbn [nullish isNullish asArray andThen]; try (eexists; reflexivity).
      destruct (asStrings items) eqn:Hl; [discriminate|].
      destruct (mapTrim_nonString items (asStrings_None _ Hl)) as [e ->].
      eexists. reflexivity. }
  destruct (items <~ asArray _ ;; _) as [fs|e]; cbn [andThen]; [|eexists; reflexivity].
  destruct (asOptionalString (gen_usage g)) as [u|] eqn:Hu.
  - destruct (asOptionalString (gen_installation g)) as [i|] eqn:Hi; [discriminate|].
    destruct (callTrim_not_optionalString _ (JStr notSpecified) Hi) as [e ->].
    eexists. reflexivity.
  - destruct (callTrim (nullish (gen_installation g) _)) as [i'|e]; cbn [andThen];
      [|eexists; reflexivity].
    destruct (callTrim_not_optionalString _ (JStr notSpecified) Hu) as [e ->].
    eexists. reflexivity.
Qed.

Lemma buildReadme_of_typedOf (meta : RepoMetadata) (g : GeneratedSections)
    (filled : FilledFlags) (t : TypedSections) :
  typedOf g = Some t ->
  buildReadme meta g filled = Returned (render (sectionsOf meta t)).
Proof.
  intros Ht. rewrite <- (buildReadme_typed meta t filled).
  unfold buildReadme. rewrite (readmeParts_typedOf meta g t Ht). reflexivity.
Qed.

Lemma buildReadme_not_typed (meta : RepoMetadata) (g : GeneratedSections)
    (filled : FilledFlags) :
  typedOf g = None -> exists e, buildReadme meta g filled = Thrown e.
Proof.
  intros Hn. destruct (readmeParts_not_typed meta g Hn) as [e He].
  exists e. unfold buildReadme. rewrite He. reflexivity.
Qed.

Lemma buildReadme_returned (meta : RepoMetadata) (g : GeneratedSections)
    (filled : FilledFlags) (doc : string) :
  buildReadme meta g filled = Returned doc ->
  exists t, typedOf g = Some t /\ doc = render (sectionsOf meta t).
Proof.
  intros Hdoc. destruct (typedOf g) as [t|] eqn:Ht.
  - exists t. split; [reflexivity|].
    rewrite (buildReadme_of_typedOf meta g filled t Ht) in Hdoc.
    inversion Hdoc. reflexivity.
  - destruct (buildReadme_not_typed meta g filled Ht) as [e He].
    rewrite He in Hdoc. discriminate.
Qed.

(** [buildReadme] returns exactly on the narratives whose description,
    installation and usage are absent or strings and whose features are
    absent or an array of strings; on every other narrative it throws.  So
    every document it ever returns is the eight sections of a well-typed
    narrative. *)
Theorem buildReadme_returns_iff_well_shaped
    (meta : RepoMetadata) (g : GeneratedSections) (filled : FilledFlags) :
  (forall t, typedOf g = Some t ->
             buildReadme meta g filled = Returned (render (sectionsOf meta t))) /\
  (typedOf g = None -> exists e, buildReadme meta g filled = Thrown e) /\
  (forall doc, buildReadme meta g filled = Returned doc ->
               exists t, typedOf g = Some t /\ doc = render (sectionsOf meta t)).
Proof.
  split; [|split].
  - exact (buildReadme_of_typedOf meta g filled).
  - exact (buildReadme_not_typed meta g filled).
  - exact (buildReadme_returned meta g filled).
Qed.

(** ** Replies, warnings and requests of the route *)

Lemma slice0_length (n : nat) (s : string) : (String.length (Js.slice0 n s) <= n)%nat.
Proof.
  unfold Js.slice0. revert s. induction n as [|n IH]; intros s.
  - destruct s; apply le_n.
  - destruct s as [|c s]; cbn [substring String.length].
    + apply le_0_n.
    + apply le_n_S, IH.
Qed.

Lemma fetchRepoMetadata_success (owner' repo' token : string) (w : World)
    (tr tr' : Trace) (meta : RepoMetadata) :
  fetchRepoMetadata owner' repo' token w tr = (Returned meta, tr') ->
  exists repoData langsData treeData,
    jsonOf (repoEndpoint w (repoInfoUrl owner' repo') (githubHeaders token))
    = Returned repoData /\
    jsonOf (languagesEndpoint w (languagesUrl owner' repo') (githubHeaders token))
    = Returned langsData /\
    jsonOf (treeEndpoint w (treeUrl owner' repo' (default_branch repoData))
              (githubHeaders token))
    = Returned treeData /\
    meta = metadataOf owner' repo' repoData langsData treeData /\
    tr' = (tr ++ githubRequests owner' repo' token (default_branch repoData))%list.
Proof.
  rewrite fetchRepoMetadata_run. cbv zeta.
  destruct (jsonOf (repoEndpoint w _ _)) as [repoData|e]; [|discriminate].
  destruct (jsonOf (languagesEndpoint w _ _)) as [langsData|e]; [|discriminate].
  destruct (jsonOf (treeEndpoint w _ _)) as [treeData|e] eqn:Htree; [|discriminate].
  intros H. inversion H; subst.
  exists repoData, langsData, treeData. repeat split. exact Htree.
Qed.

Lemma fetchRepoMetadata_trace (owner' repo' token : string) (w : World) (tr : Trace)
    (out : outcome RepoMetadata) (tr' : Trace) :
  fetchRepoMetadata owner' repo' token w tr = (out, tr') ->
  exists branch k,
    tr' = (tr ++ firstn k (githubRequests owner' repo' token branch))%list /\
    (1 <= k <= 3)%nat /\
    (forall meta, out = Returned meta -> k = 3%nat /\ branch = defaultBranch meta).
Proof.
  rewrite fetchRepoMetadata_run. cbv zeta.
  destruct (jsonOf (repoEndpoint w _ _)) as [repoData|e].
  2:{ intros H. inversion H; subst. exists EmptyString, 1%nat.
      repeat split; auto; discriminate. }
  destruct (jsonOf (languagesEndpoint w _ _)) as [langsData|e].
  2:{ intros H. inversion H; subst. exists EmptyString, 2%nat.
      repeat split; auto; discriminate. }
  destruct (jsonOf (treeEndpoint w _ _)) as [treeData|e];
    intros H; inversion H; subst; exists (default_branch repoData), 3%nat;
    (split; [reflexivity|]); (split; [auto|]); intros meta Hm; inversion Hm;
    split; reflexivity.
Qed.

Lemma prefix_append (a b : string) : String.prefix a (a ++ b) = true.
Proof.
  induction a as [|c a IH]; [destruct b; reflexivity|].
  cbn [String.append]. rewrite prefix_cons, Ascii.eqb_refl. exact IH.
Qed.

Lemma githubRequests_shape (owner' repo' token branch : string) (request : Request) :
  In request (githubRequests owner' repo' token branch) ->
  isGithubRequest token request.
Proof.
  unfold githubRequests, languagesUrl, treeUrl, repoInfoUrl.
  intros [<-|[<-|[<-|[]]]]; eexists; (split; [reflexivity|]).
  - apply prefix_append.
  - rewrite append_assoc. apply prefix_append.
  - rewrite append_assoc. apply prefix_append.
Qed.

Lemma In_firstn {A : Type} (k : nat) (l : list A) (x : A) :
  In x (firstn k l) -> In x l.
Proof.
  revert l. induction k as [|k IH]; intros l H; [contradiction|].
  destruct l as [|y l]; [contradiction|].
  destruct H as [->|H]; [left; reflexivity|right; exact (IH l H)].
Qed.

(** The error text of every failure reply, and the message of every
    warning of a success payload, has at most 500 characters, whatever the
    upstream services sent back. *)
Theorem error_messages_are_bounded (w : World) (body : JsVal) (env : ProcessEnv)
    (reply : HttpReply) (tr : Trace) :
  run w body env = (Returned reply, tr) ->
  match reply_body reply with
  | Failure e => (String.length (error e) <= 500)%nat
  | Success payload =>
      forall x, In x (warnings payload) -> (String.length (err_message x) <= 500)%nat
  end.
Proof.
  intros Hrun. pose proof (run_case w body env) as C. rewrite Hrun in C.
  inversion C; subst; cbv zeta in *; cbn [reply_body fail internalError error];
    try (apply Nat.leb_le; reflexivity); try apply slice0_length.
  match goal with H : assembleReply _ _ _ = Returned reply |- _ =>
    destruct (assembleReply_success _ _ _ _ H) as (payload & -> & _ & _ & Herr & _)
  end.
  cbn [reply_body]. intros x Hx. unfold warnings in Hx. rewrite Herr in Hx.
  assert (Hall : forall y,
             In y (snd (narrated w (GEMINI_API_KEY env) meta
                          (initialErrors (GEMINI_API_KEY env)))) ->
             (String.length (err_message y) <= 500)%nat).
  { intros y Hy. unfold narrated, initialErrors in Hy.
    destruct (whenTruthy (GEMINI_API_KEY env)) as [key|];
      [destruct (sectionsOfAnswer _ _)|]; cbn [snd] in Hy;
      try apply in_app_or in Hy;
      destruct (negb (truthyString (GEMINI_API_KEY env)));
      repeat match goal with
             | H : _ \/ _ |- _ => destruct H
             | H : In _ _ |- _ => destruct H
             | H : _ = y |- _ => subst y
             end; cbn [err_message geminiError];
      try (apply Nat.leb_le; reflexivity); try apply slice0_length. }
  apply Hall. destruct (snd _); [contradiction|exact Hx].
Qed.

(** The requests of one run: first at most three GETs to the hosting
    provider, each carrying the server's token; then, only after all three
    and only when a generative-service key is set, one POST to the
    generative service, which is the last request.  Nothing else is sent. *)
Theorem requests_are_ordered_and_bounded (w : World) (body : JsVal) (env : ProcessEnv) :
  exists gets posts,
    snd (run w body env) = (gets ++ posts)%list /\
    (length gets <= 3)%nat /\
    (forall request, In request gets ->
       exists token, whenTruthy (GITHUB_TOKEN env) = Some token /\
                     isGithubRequest token request) /\
    (posts = [] \/
     exists key meta,
       posts = [Post (geminiUrl key) geminiHeaders (geminiBody meta)] /\
       whenTruthy (GEMINI_API_KEY env) = Some key /\
       length gets = 3%nat).
Proof.
  assert (Hnone : exists gets posts : Trace,
             @nil Request = (gets ++ posts)%list /\ (length gets <= 3)%nat /\
             (forall request, In request gets ->
                exists token, whenTruthy (GITHUB_TOKEN env) = Some token /\
                              isGithubRequest token request) /\
             (posts = [] \/
              exists key meta,
                posts = [Post (geminiUrl key) geminiHeaders (geminiBody meta)] /\
                whenTruthy (GEMINI_API_KEY env) = Some key /\ length gets = 3%nat)).
  { exists [], []. repeat split; auto. intros ? []. }
  destruct (run_case w body env) as
    [ | | | | owner' repo' token e tr Hreach Hfetch
      | owner' repo' token meta tr e Hreach Hfetch _
      | owner' repo' token meta tr reply Hreach Hfetch _ ];
    cbn [snd]; try exact Hnone.
  - destruct (fetchRepoMetadata_trace _ _ _ _ _ _ _ Hfetch) as (branch & k & -> & Hk & _).
    destruct Hreach as (url & _ & _ & _ & Htoken).
    exists (firstn k (githubRequests owner' repo' token branch)), [].
    rewrite app_nil_r. repeat split; auto.
    + rewrite length_firstn. apply Nat.le_min_r.
    + intros request Hin. exists token. split; [exact Htoken|].
      exact (githubRequests_shape _ _ _ _ _ (In_firstn _ _ _ Hin)).
  - destruct (fetchRepoMetadata_success _ _ _ _ _ _ _ Hfetch)
      as (repoData & _ & _ & _ & _ & _ & _ & ->).
    destruct Hreach as (url & _ & _ & _ & Htoken).
    exists (githubRequests owner' repo' token (default_branch repoData)),
      (narrativeTrace (GEMINI_API_KEY env) meta).
    repeat split; auto.
    + intros request Hin. exists token. split; [exact Htoken|].
      exact (githubRequests_shape _ _ _ _ _ Hin).
    + unfold narrativeTrace. destruct (whenTruthy (GEMINI_API_KEY env)) as [key|];
        [right; exists key, meta; repeat split|left; reflexivity].
  - destruct (fetchRepoMetadata_success _ _ _ _ _ _ _ Hfetch)
      as (repoData & _ & _ & _ & _ & _ & _ & ->).
    destruct Hreach as (url & _ & _ & _ & Htoken).
    exists (githubRequests owner' repo' token (default_branch repoData)),
      (narrativeTrace (GEMINI_API_KEY env) meta).
    repeat split; auto.
    + intros request Hin. exists token. split; [exact Htoken|].
      exact (githubRequests_shape _ _ _ _ _ Hin).
    + unfold narrativeTrace. destruct (whenTruthy (GEMINI_API_KEY env)) as [key|];
        [right; exists key, meta; repeat split|left; reflexivity].
Qed.

Lemma metadataOf_names (owner' repo' : string) (repoData : RepoData)
    (langsData : LanguagesData) (treeData : TreeData) :
  owner (metadataOf owner' repo' repoData langsData treeData) = owner' /\
  repo (metadataOf owner' repo' repoData langsData treeData) = repo'.
Proof.
  split; reflexivity.
Qed.

(** A success payload describes the repository the request named: its
    metadata carries the owner and the repository parsed from the URL, the
    file name is the repository name followed by [-README.md], and the
    document is the eight sections of that metadata.  Its warnings are never
    an empty list: the field is absent, or holds exactly one warning, which
    is the missing key when no generative-service key is set and a
    generative-service error otherwise. *)
Theorem success_payload_describes_the_request (w : World) (body : JsVal)
    (env : ProcessEnv) (payload : GenerateReadmeResponse) (st : N) (tr : Trace) :
  run w body env = (Returned {| reply_status := st; reply_body := Success payload |}, tr) ->
  exists url owner' repo',
    requestedUrl body = Returned (Some url) /\
    parseRepoUrl url = Some (owner', repo') /\
    owner (metadata payload) = owner' /\
    repo (metadata payload) = repo' /\
    fileName payload = repo' ++ "-README.md" /\
    (exists t, readme payload = render (sectionsOf (metadata payload) t)) /\
    errors payload <> Some [] /\
    (truthyString (GEMINI_API_KEY env) = false ->
     errors payload = Some [missingKeyWarning]) /\
    (truthyString (GEMINI_API_KEY env) = true ->
     errors payload = None \/ exists e, errors payload = Some [geminiError e]).
Proof.
  intros Hrun. pose proof (run_case w body env) as C. rewrite Hrun in C.
  inversion C as [ | | | | | | owner' repo' token meta tr1 reply Hreach Hfetch Hasm ];
    subst; cbv zeta in *.
  destruct (assembleReply_success _ _ _ _ Hasm)
    as (p & Hp & Hmeta & Hname & Herr & _ & Hdoc).
  inversion Hp; subst p; clear Hp.
  destruct (fetchRepoMetadata_success _ _ _ _ _ _ _ Hfetch)
    as (repoData & langsData & treeData & _ & _ & _ & Hm & _).
  destruct Hreach as (url & Hreq & _ & Hparse & _).
  exists url, owner', repo'.
  split; [exact Hreq|]. split; [exact Hparse|].
  rewrite Hmeta. rewrite Hm at 1 2. cbn [owner repo metadataOf].
  split; [reflexivity|]. split; [reflexivity|].
  split; [rewrite Hname, Hm; reflexivity|].
  split.
  { destruct (buildReadme_returned meta _ _ _ Hdoc) as (t & _ & Ht).
    exists t. exact Ht. }
  rewrite Herr. unfold narrated, initialErrors, whenTruthy.
  destruct (truthyString (GEMINI_API_KEY env)) eqn:Hkey; cbn [negb].
  - destruct (GEMINI_API_KEY env) as [key|]; [|discriminate Hkey].
    destruct (sectionsOfAnswer _ _) as [g|e]; cbn [snd List.app].
    + repeat split; try discriminate. intros _. left. reflexivity.
    + repeat split; try discriminate. intros _. right. exists e. reflexivity.
  - cbn [snd]. repeat split; try discriminate.
Qed.

(** ** White space around the submitted URL *)

Lemma trimStart_clean (s : string) : startsClean (Js.trimStart s).
Proof.
  unfold startsClean. induction s as [|c s IH]; [reflexivity|].
  cbn [Js.trimStart]. destruct (Js.isWhiteSpace c) eqn:Hc; [exact IH|].
  cbn [startsWithWhiteSpace]. exact Hc.
Qed.

Lemma trimStart_of_clean (s : string) : startsClean s -> Js.trimStart s = s.
Proof.
  unfold startsClean. destruct s as [|c s]; [reflexivity|].
  cbn [startsWithWhiteSpace Js.trimStart]. intros ->. reflexivity.
Qed.

Lemma trimEnd_clean (s : string) : startsClean s -> startsClean (Js.trimEnd s).
Proof.
  unfold startsClean. destruct s as [|c s]; [reflexivity|].
  cbn [startsWithWhiteSpace Js.trimEnd]. intros Hc.
  destruct (Js.trimEnd s); [rewrite Hc|]; cbn [startsWithWhiteSpace]; exact Hc.
Qed.

Lemma trimEnd_idempotent (s : string) : Js.trimEnd (Js.trimEnd s) = Js.trimEnd s.
Proof.
  induction s as [|c s IH]; [reflexivity|].
  cbn [Js.trimEnd]. destruct (Js.trimEnd s) as [|d t] eqn:Ht.
  - destruct (Js.isWhiteSpace c) eqn:Hc; [reflexivity|].
    cbn [Js.trimEnd]. rewrite Hc. reflexivity.
  - change (Js.trimEnd (String c (String d t)))
      with (match Js.trimEnd (String d t) with
            | EmptyString => if Js.isWhiteSpace c then EmptyString else String c EmptyString
            | String x y => String c (String x y)
            end).
    rewrite IH. reflexivity.
Qed.

Lemma trim_idempotent (s : string) : Js.trim (Js.trim s) = Js.trim s.
Proof.
  unfold Js.trim.
  rewrite (trimStart_of_clean _ (trimEnd_clean _ (trimStart_clean s))).
  apply trimEnd_idempotent.
Qed.

(** White space around the submitted URL never changes the response nor
    the requests made: the route answers a URL and its trimmed form alike. *)
Theorem surrounding_white_space_is_ignored (w : World) (env : ProcessEnv) (raw : string) :
  run w (requestFor raw) env = run w (requestFor (Js.trim raw)) env.
Proof.
  unfold run, generateReadmeRoute, tryCatch, handleRequest, bind, lift, requestedUrl,
    requestFor.
  cbn [optGet lookup String.eqb Ascii.eqb Bool.eqb isNullish callTrim andThen].
  rewrite trim_idempotent. reflexivity.
Qed.

(** ** What the fetcher keeps *)

Lemma jsonOf_inv {T : Type} (answer' : outcome (Response T)) (x : T) :
  jsonOf answer' = Returned x ->
  exists res, answer' = Returned res /\ ok res = true /\ json res = Returned x.
Proof.
  unfold jsonOf. destruct answer' as [res|e]; [|discriminate].
  destruct (ok res) eqn:Hok; cbn [negb]; [|discriminate].
  intros H. exists res. split; [reflexivity|]. split; [exact Hok|exact H].
Qed.

Lemma firstn_short {A : Type} (n : nat) (l : list A) :
  (length (firstn n l) < n)%nat -> firstn n l = l.
Proof.
  revert l. induction n as [|n IH]; intros l H.
  - inversion H.
  - destruct l as [|x l]; [reflexivity|]. cbn [firstn length] in *.
    rewrite IH; [reflexivity|]. apply Nat.succ_lt_mono. exact H.
Qed.

(** When [fetchRepoMetadata] returns a record: it names the owner and the
    repository it was asked about; exactly the three GETs were made, the
    last one for the default branch of the record; the home page is never
    the empty string; the tree has at most 500 paths, each the path of a
    file or directory node of the tree reply; and when it has fewer than
    500, no such node was left out. *)
Theorem fetched_metadata_is_normalised (owner' repo' token : string) (w : World)
    (tr tr' : Trace) (meta : RepoMetadata) :
  fetchRepoMetadata owner' repo' token w tr = (Returned meta, tr') ->
  owner meta = owner' /\ repo meta = repo' /\
  tr' = (tr ++ githubRequests owner' repo' token (defaultBranch meta))%list /\
  homepage meta <> Some EmptyString /\
  (length (tree meta) <= 500)%nat /\
  exists res treeData,
    treeEndpoint w (treeUrl owner' repo' (defaultBranch meta)) (githubHeaders token)
    = Returned res /\
    ok res = true /\ json res = Returned treeData /\
    (forall p, In p (tree meta) ->
       exists n, In n (nodesOf treeData) /\ isKept n = true /\ path n = p) /\
    ((length (tree meta) < 500)%nat ->
     forall n, In n (nodesOf treeData) -> isKept n = true -> In (path n) (tree meta)).
Proof.
  intros Hfetch.
  destruct (fetchRepoMetadata_success _ _ _ _ _ _ _ Hfetch)
    as (repoData & langsData & treeData & _ & _ & Htree & -> & ->).
  cbn [owner repo defaultBranch homepage tree metadataOf].
  repeat split.
  - destruct (data_homepage repoData) as [[|c s]|]; cbn [truthyString Js.isEmpty negb];
      discriminate.
  - rewrite length_firstn. apply Nat.le_min_l.
  - destruct (jsonOf_inv _ _ Htree) as (res & Hres & Hok & Hjson).
    exists res, treeData. repeat split; try assumption.
    + intros p Hp. apply In_firstn in Hp. apply in_map_iff in Hp as (n & <- & Hn).
      apply filter_In in Hn as [Hin Hkept]. exists n. repeat split; assumption.
    + intros Hlen n Hin Hkept. rewrite (firstn_short _ _ Hlen).
      apply in_map. apply filter_In. split; assumption.
Qed.

(** [callGemini] makes exactly one request, whatever it is answered: a POST
    to the generative service whose prompt holds the first paths of the
    tree, at most 120 of them, and the name, description, languages,
    license, default branch, home page and topics of the metadata. *)
Theorem prompt_previews_the_tree (key : string) (meta : RepoMetadata) (w : World)
    (tr : Trace) :
  exists body rest,
    snd (callGemini key meta w tr)
    = (tr ++ [Post (geminiUrl key) [("Content-Type", "application/json")] body])%list /\
    (length (treePreview (repositoryMetadata body)) <= 120)%nat /\
    tree meta = (treePreview (repositoryMetadata body) ++ rest)%list /\
    prompt_name (repositoryMetadata body) = name meta /\
    prompt_description (repositoryMetadata body) = description meta /\
    prompt_languages (repositoryMetadata body) = languages meta /\
    prompt_license (repositoryMetadata body) = license meta /\
    prompt_defaultBranch (repositoryMetadata body) = defaultBranch meta /\
    prompt_homepage (repositoryMetadata body) = homepage meta /\
    prompt_topics (repositoryMetadata body) = topics meta.
Proof.
  exists (geminiBody meta), (skipn 120 (tree meta)).
  rewrite callGemini_run. cbn [snd geminiBody repositoryMetadata treePreview
    prompt_name prompt_description prompt_languages prompt_license
    prompt_defaultBranch prompt_homepage prompt_topics].
  repeat split.
  - rewrite length_firstn. apply Nat.le_min_l.
  - symmetry. apply firstn_skipn.
Qed.

(** ** The environment check and the route *)

Lemma isConfigured_truthy (v : option string) :
  isConfigured v = true -> truthyString v = true.
Proof.
  destruct v as [[|c s]|]; cbn [isConfigured truthyString Js.isEmpty negb];
    [discriminate|reflexivity|discriminate].
Qed.

(** What [handleEnvCheck] reports as configured, the route accepts: when it
    reports the hosting-provider token, no request is answered with
    [MISSING_GITHUB_TOKEN]; when it reports the generative-service key, no
    payload carries the missing-key warning.  The check is the stricter of
    the two: a value made of white space only is reported as not
    configured, and the route still uses it. *)
Theorem env_check_never_overstates (env : ProcessEnv) :
  (hasGitHub (handleEnvCheck env) = true ->
   forall w body reply tr e,
     run w body env = (Returned reply, tr) ->
     reply_body reply = Failure e ->
     code e <> "MISSING_GITHUB_TOKEN") /\
  (hasGemini (handleEnvCheck env) = true ->
   forall w body st payload tr,
     run w body env
     = (Returned {| reply_status := st; reply_body := Success payload |}, tr) ->
     ~ In missingKeyWarning (warnings payload)) /\
  (forall token,
     GITHUB_TOKEN env = Some token ->
     token <> EmptyString -> Js.trim token = EmptyString ->
     hasGitHub (handleEnvCheck env) = false /\
     whenTruthy (GITHUB_TOKEN env) = Some token).
Proof.
  split; [|split].
  - cbn [handleEnvCheck hasGitHub]. intros Hcheck w body reply tr e Hrun Hbody.
    apply isConfigured_truthy in Hcheck.
    pose proof (run_case w body env) as C. rewrite Hrun in C.
    inversion C; subst; cbv zeta in *; cbn [reply_body fail internalError] in Hbody;
      try (inversion Hbody; subst; cbn [code]; discriminate).
    + match goal with H : whenTruthy (GITHUB_TOKEN env) = None |- _ =>
        unfold whenTruthy in H; rewrite Hcheck in H;
        destruct (GITHUB_TOKEN env); discriminate
      end.
    + match goal with H : assembleReply _ _ _ = Returned reply |- _ =>
        destruct (assembleReply_success _ _ _ _ H) as (p & -> & _)
      end. discriminate Hbody.
  - cbn [handleEnvCheck hasGemini]. intros Hcheck w body st payload tr Hrun.
    apply isConfigured_truthy in Hcheck.
    pose proof (run_case w body env) as C. rewrite Hrun in C.
    inversion C as [ | | | | | | owner' repo' token meta tr1 reply Hreach Hfetch Hasm ];
      subst; cbv zeta in *.
    destruct (assembleReply_success _ _ _ _ Hasm) as (p & Hp & _ & _ & Herr & _).
    inversion Hp; subst p; clear Hp.
    unfold warnings. rewrite Herr. unfold narrated, initialErrors, whenTruthy.
    rewrite Hcheck. cbn [negb].
    destruct (GEMINI_API_KEY env) as [key|]; [|discriminate Hcheck].
    destruct (sectionsOfAnswer _ _) as [g|e]; cbn [snd List.app].
    + intros [].
    + intros [H|[]]. discriminate H.
  - intros token Htoken Hne Hblank. cbn [handleEnvCheck hasGitHub].
    rewrite Htoken. unfold isConfigured, whenTruthy, truthyString.
    destruct token as [|c s]; [contradiction|]. cbn [Js.isEmpty negb].
    rewrite Hblank. split; reflexivity.
Qed.

(** ** One bullet per language *)

Lemma splitCommaFrom_piece (x r : string) (b : bool) :
  hasComma x = false ->
  (b = true -> startsWithWhiteSpace x = false) ->
  Js.splitCommaFrom b (x ++ String "," r) = x :: Js.splitCommaFrom true r.
Proof.
  revert b. induction x as [|c x IH]; intros b Hx Hb.
  - cbn [String.append Js.splitCommaFrom].
    replace (b && Js.isWhiteSpace ",") with false by (destruct b; reflexivity).
    reflexivity.
  - cbn [hasComma] in Hx. apply orb_false_elim in Hx as [Hc Hx].
    cbn [String.append Js.splitCommaFrom]. rewrite Hc.
    replace (b && Js.isWhiteSpace c) with false
      by (destruct b; cbn [andb]; [symmetry; exact (Hb eq_refl)|reflexivity]).
    rewrite (IH false Hx) by discriminate. reflexivity.
Qed.

Lemma splitCommaFrom_last (x : string) (b : bool) :
  hasComma x = false ->
  (b = true -> startsWithWhiteSpace x = false) ->
  Js.splitCommaFrom b x = [x].
Proof.
  revert b. induction x as [|c x IH]; intros b Hx Hb; [reflexivity|].
  cbn [hasComma] in Hx. apply orb_false_elim in Hx as [Hc Hx].
  cbn [Js.splitCommaFrom]. rewrite Hc.
  replace (b && Js.isWhiteSpace c) with false
    by (destruct b; cbn [andb]; [symmetry; exact (Hb eq_refl)|reflexivity]).
  rewrite (IH false Hx) by discriminate. reflexivity.
Qed.

Lemma splitCommaFrom_join (l : list string) (x : string) (b : bool) :
  (forall s, In s (x :: l) -> hasComma s = false) ->
  (forall s, In s l -> startsWithWhiteSpace s = false) ->
  (b = true -> startsWithWhiteSpace x = false) ->
  Js.splitCommaFrom b (Js.join ", " (x :: l)) = x :: l.
Proof.
  revert x b. induction l as [|y l IH]; intros x b Hcomma Hws Hb.
  - cbn [Js.join String.concat]. apply splitCommaFrom_last; auto.
    apply Hcomma. left. reflexivity.
  - change (Js.join ", " (x :: y :: l))
      with (x ++ String "," (String " " (Js.join ", " (y :: l)))).
    rewrite splitCommaFrom_piece by (auto; apply Hcomma; left; reflexivity).
    cbn [Js.splitCommaFrom andb]. change (Js.isWhiteSpace " ") with true. cbv iota.
    rewrite IH; [reflexivity| | |].
    + intros s Hs. apply Hcomma. right. exact Hs.
    + intros s Hs. apply Hws. right. exact Hs.
    + intros _. apply Hws. left. reflexivity.
Qed.

(** When no language name holds a comma and none after the first starts
    with white space, joining the names with a comma and splitting them
    again gives the names back: the Tech Stack section of the document has
    one bullet per language, in the order of the metadata. *)
Theorem tech_stack_has_one_bullet_per_language
    (meta : RepoMetadata) (t : TypedSections) (filled : FilledFlags) :
  languages meta <> [] ->
  (forall s, In s (languages meta) -> hasComma s = false) ->
  (forall s, In s (tl (languages meta)) -> startsWithWhiteSpace s = false) ->
  exists title description' features installation' usage' structure licence,
    buildReadme meta (ofTyped t) filled
    = Returned (render
        [ (title, []);
          ("## Description", [description']);
          ("## Features", features);
          ("## Installation Guide", [installation']);
          ("## Usage", [usage']);
          ("## Tech Stack", [Js.join LF (map bullet (languages meta))]);
          ("## Project Structure", [structure]);
          ("## License Information", [licence]) ]).
Proof.
  intros Hne Hcomma Hws. do 7 eexists. rewrite buildReadme_typed.
  unfold sectionsOf, techStackBlock.
  destruct (languages meta) as [|x l] eqn:Hl; [contradiction|].
  unfold Js.splitComma. rewrite (splitCommaFrom_join l x false Hcomma Hws) by discriminate.
  reflexivity.
Qed.

(** ** The serverless function *)

Lemma requestedUrl_blank (body : JsVal) :
  hasBlankUrl body ->
  exists repoUrl, requestedUrl body = Returned repoUrl /\ whenTruthy repoUrl = None.
Proof.
  unfold requestedUrl.
  intros [H|[H|(s & H & Hs)]]; rewrite H; cbn [isNullish callTrim andThen].
  - exists None. split; reflexivity.
  - exists None. split; reflexivity.
  - exists (Some (Js.trim s)). split; [reflexivity|]. rewrite Hs. reflexivity.
Qed.

Lemma callTrim_blank (body : JsVal) :
  hasBlankUrl body ->
  callTrim (orValue (optGet "repoUrl" body) (JStr EmptyString)) = Returned EmptyString.
Proof.
  intros [H|[H|(s & H & Hs)]]; rewrite H; try reflexivity.
  unfold orValue. cbn [truthy]. destruct s as [|c s]; [reflexivity|].
  cbn [Js.isEmpty negb callTrim]. rewrite Hs. reflexivity.
Qed.

(** Both entry points refuse a request whose [repoUrl] is absent or blank
    in the same way, before anything else happens: the route answers 400
    [MISSING_REPO_URL] without any network request, and the function
    answers 400 with the same error and code whatever [performGenerate]
    would do. *)
Theorem both_entry_points_refuse_a_blank_url (w : World) (env : ProcessEnv)
    (body : JsVal) :
  hasBlankUrl body ->
  run w body env
  = (Returned (fail 400 "Repository URL is required." "MISSING_REPO_URL"), []) /\
  (forall performGenerate pingMessage event,
     asksForReadme event = true ->
     eventBody w event = Returned body ->
     handler performGenerate w env pingMessage event
     = Resolved (jsonResponse missingUrlBody 400%N)).
Proof.
  intros Hblank. split.
  - destruct (requestedUrl_blank body Hblank) as (repoUrl & Hreq & Hnone).
    unfold run, generateReadmeRoute, tryCatch, handleRequest, bind, lift.
    rewrite Hreq, Hnone. reflexivity.
  - intros performGenerate pingMessage event Hasks Hbody.
    unfold asksForReadme in Hasks. unfold handler.
    set (path' := match whenTruthy (event_path event) with
                  | Some p => p | None => EmptyString end) in *.
    set (method := match whenTruthy (event_httpMethod event) with
                   | Some m => m | None => "GET" end) in *.
    apply andb_prop in Hasks as [Hpath Hmethod].
    assert (Hget : upperCaseIs "GET" method = false).
    { unfold upperCaseIs in *.
      destruct (list_eq_dec N.eq_dec (toUpperCase method) (codeUnits "POST")) as [Hp|];
        [|discriminate].
      destruct (list_eq_dec N.eq_dec (toUpperCase method) (codeUnits "GET")) as [Hg|];
        [|reflexivity].
      rewrite Hp in Hg. discriminate Hg. }
    rewrite Hget, !andb_false_r, Hpath, Hmethod. cbn [andb].
    unfold generateBranch. rewrite Hbody.
    rewrite (callTrim_blank body Hblank). reflexivity.
Qed.

Lemma answerError_resolves (e : Throwable) :
  isTestableCode (thrownGet "code" e) = true ->
  exists response,
    answerError e = Resolved response /\
    In (statusCode response) [400%N; 500%N; 502%N].
Proof.
  unfold answerError. intros Hcode.
  destruct (isTheString "INVALID_REPO_URL" (thrownGet "code" e)).
  - eexists. split; [reflexivity|]. cbn. auto.
  - destruct (thrownGet "code" e); try discriminate Hcode; cbn [includesGithub].
    + eexists. split; [reflexivity|]. cbn. auto.
    + eexists. split; [reflexivity|]. cbn. auto.
    + destruct (Js.includes "GITHUB" s); eexists; (split; [reflexivity|]); cbn; auto.
    + destruct (existsb _ items); eexists; (split; [reflexivity|]); cbn; auto.
Qed.

(** The function answers every event with a response of status 200, 400,
    404, 500 or 502, provided that whatever [performGenerate] throws has a
    [code] that is absent, a string or an array.  (The [catch] block calls
    [includes] on the code: with a number, a boolean or an object there the
    function itself rejects.) *)
Theorem function_always_responds (performGenerate : PerformGenerate) (w : World)
    (env : ProcessEnv) (pingMessage : option string) (event : LambdaEvent) :
  (forall url token key e,
     performGenerate url token key = Rejected e ->
     isTestableCode (thrownGet "code" e) = true) ->
  exists response,
    handler performGenerate w env pingMessage event = Resolved response /\
    In (statusCode response) [200%N; 400%N; 404%N; 500%N; 502%N].
Proof.
  intros Hpg. unfold handler.
  assert (Herr : forall e, isTestableCode (thrownGet "code" e) = true ->
            exists response,
              answerError e = Resolved response /\
              In (statusCode response) [200%N; 400%N; 404%N; 500%N; 502%N]).
  { intros e He. destruct (answerError_resolves e He) as (r & Hr & Hin).
    exists r. split; [exact Hr|]. cbn in *. intuition. }
  destruct (_ && _); [eexists; split; [reflexivity|cbn; auto]|].
  destruct (_ && _); [eexists; split; [reflexivity|cbn; auto]|].
  destruct (_ && _); [|eexists; split; [reflexivity|cbn; auto]].
  unfold generateBranch.
  destruct (eventBody w event) as [body|err].
  2:{ apply Herr. reflexivity. }
  destruct (callTrim _) as [repoUrl|err]; [|apply Herr; reflexivity].
  destruct (Js.isEmpty repoUrl); [eexists; split; [reflexivity|cbn; auto]|].
  destruct (performGenerate repoUrl _ _) as [payload|e] eqn:Hcall.
  - eexists. split; [reflexivity|]. cbn. auto.
  - apply Herr. exact (Hpg _ _ _ _ Hcall).
Qed.

(** ** The further properties at sample inputs *)

Lemma error_messages_are_bounded_witness :
  (String.length
     (Js.slice0 500
        ("GitHub API error: HTTP 500 Internal Server Error: " ++ flood)) <= 500)%nat.
Proof.
  exact (error_messages_are_bounded floodedWorld widgetRequest fullEnv
           (fail 502
              (Js.slice0 500
                 ("GitHub API error: HTTP 500 Internal Server Error: " ++ flood))
              "GITHUB_API_ERROR")
           [Get (repoInfoUrl "acme" "widget") (githubHeaders "ghp_token")]
           eq_refl).
Defined.

Lemma success_payload_describes_the_request_witness :
  exists url owner' repo',
    requestedUrl widgetRequest = Returned (Some url) /\
    parseRepoUrl url = Some (owner', repo') /\
    owner (metadata downPayload) = owner' /\
    repo (metadata downPayload) = repo' /\
    fileName downPayload = repo' ++ "-README.md" /\
    (exists t, readme downPayload = render (sectionsOf (metadata downPayload) t)) /\
    errors downPayload <> Some [] /\
    (truthyString (GEMINI_API_KEY fullEnv) = false ->
     errors downPayload = Some [missingKeyWarning]) /\
    (truthyString (GEMINI_API_KEY fullEnv) = true ->
     errors downPayload = None \/ exists e, errors downPayload = Some [geminiError e]).
Proof.
  exact (success_payload_describes_the_request geminiDownWorld widgetRequest fullEnv
           downPayload 200%N
           (githubTrace ++ [geminiRequest "gm_key" fetchedWidget])%list eq_refl).
Defined.

Lemma fetched_metadata_is_normalised_witness :
  owner fetchedWidget = "acme" /\ repo fetchedWidget = "widget" /\
  githubTrace = ([] ++ githubRequests "acme" "widget" "ghp_token"
                         (defaultBranch fetchedWidget))%list /\
  homepage fetchedWidget <> Some EmptyString /\
  (length (tree fetchedWidget) <= 500)%nat /\
  exists res treeData,
    treeEndpoint geminiDownWorld (treeUrl "acme" "widget" (defaultBranch fetchedWidget))
      (githubHeaders "ghp_token")
    = Returned res /\
    ok res = true /\ json res = Returned treeData /\
    (forall p, In p (tree fetchedWidget) ->
       exists n, In n (nodesOf treeData) /\ isKept n = true /\ path n = p) /\
    ((length (tree fetchedWidget) < 500)%nat ->
     forall n, In n (nodesOf treeData) -> isKept n = true ->
               In (path n) (tree fetchedWidget)).
Proof.
  exact (fetched_metadata_is_normalised "acme" "widget" "ghp_token" geminiDownWorld
           [] githubTrace fetchedWidget eq_refl).
Defined.

Lemma tech_stack_has_one_bullet_per_language_witness :
  exists title description' features installation' usage' structure licence,
    buildReadme twoLanguagesMeta (ofTyped noNarrative) noFlags
    = Returned (render
        [ (title, []);
          ("## Description", [description']);
          ("## Features", features);
          ("## Installation Guide", [installation']);
          ("## Usage", [usage']);
          ("## Tech Stack", [Js.join LF (map bullet ["TypeScript"; "CSS"])]);
          ("## Project Structure", [structure]);
          ("## License Information", [licence]) ]).
Proof.
  refine (tech_stack_has_one_bullet_per_language twoLanguagesMeta noNarrative noFlags
            _ _ _).
  - discriminate.
  - intros s [<-|[<-|[]]]; reflexivity.
  - intros s [<-|[]]. reflexivity.
Defined.

Lemma both_entry_points_refuse_a_blank_url_witness :
  run notFoundWorld (requestFor "   ") fullEnv
  = (Returned (fail 400 "Repository URL is required." "MISSING_REPO_URL"), []) /\
  handler refusingGenerate notFoundWorld fullEnv None (generateEvent None)
  = Resolved (jsonResponse missingUrlBody 400%N).
Proof.
  split.
  - refine (proj1 (both_entry_points_refuse_a_blank_url notFoundWorld fullEnv
                     (requestFor "   ") _)).
    right. right. exists "   ". split; reflexivity.
  - refine (proj2 (both_entry_points_refuse_a_blank_url notFoundWorld fullEnv
                     (JObj []) _) refusingGenerate None (generateEvent None)
              eq_refl eq_refl).
    left. reflexivity.
Defined.

Lemma function_always_responds_witness :
  exists response,
    handler refusingGenerate (worldReplying "body" widgetRequest) fullEnv None
      (generateEvent (Some "body"))
    = Resolved response /\
    In (statusCode response) [200%N; 400%N; 404%N; 500%N; 502%N].
Proof.
  refine (function_always_responds refusingGenerate (worldReplying "body" widgetRequest)
            fullEnv None (generateEvent (Some "body")) _).
  intros url token key e H. inversion H. reflexivity.
Defined.

(** The missing token, as the function reports it: status 502, where the
    route answers 500 for the same condition. *)
Example function_reports_a_missing_token_as_502 :
  handler refusingGenerate (worldReplying "body" widgetRequest) fullEnv None
    (generateEvent (Some "body"))
  = Resolved
      (jsonResponse
         (JObj [ ("error", JStr "Server missing GITHUB_TOKEN environment variable.");
                 ("code", JStr "MISSING_GITHUB_TOKEN") ])
         502%N).
Proof. reflexivity. Qed.

(** An upstream body of 600 characters: the error text is cut at 500. *)
Example long_upstream_errors_are_cut :
  exists text,
    run floodedWorld widgetRequest fullEnv
    = (Returned (fail 502 text "GITHUB_API_ERROR"),
       [Get (repoInfoUrl "acme" "widget") (githubHeaders "ghp_token")]) /\
    String.length text = 500%nat.
Proof. eexists. split; reflexivity. Qed.

(** ** The URLs sent upstream *)

Lemma allChars_append (p : ascii -> bool) (a b : string) :
  allChars p (a ++ b) = allChars p a && allChars p b.
Proof.
  induction a as [|c a IH]; cbn [String.append allChars]; [reflexivity|].
  rewrite IH, andb_assoc. reflexivity.
Qed.

Lemma hexDigit_isHexDigit (n : N) : (n < 16)%N -> isHexDigit (hexDigit n) = true.
Proof.
  intros H.
  assert (Hall : forallb (fun k => isHexDigit (hexDigit (N.of_nat k))) (seq 0 16) = true)
    by reflexivity.
  rewrite forallb_forall in Hall.
  rewrite <- (N2Nat.id n). apply Hall. apply in_seq. lia.
Qed.

Lemma percentByte_encoded (b : N) : (b < 256)%N -> allChars isEncoded (percentByte b) = true.
Proof.
  intros H. unfold percentByte. cbn [allChars].
  assert (H1 : isHexDigit (hexDigit (b / 16)) = true).
  { apply hexDigit_isHexDigit. apply N.Div0.div_lt_upper_bound. exact H. }
  assert (H2 : isHexDigit (hexDigit (b mod 16)) = true).
  { apply hexDigit_isHexDigit. apply N.mod_lt. discriminate. }
  unfold isEncoded at 2 3. rewrite H1, H2, !orb_true_r. reflexivity.
Qed.

Lemma encodeURIComponent_encoded (s : string) :
  allChars isEncoded (encodeURIComponent s) = true.
Proof.
  induction s as [|c s IH]; [reflexivity|].
  cbn [encodeURIComponent]. rewrite allChars_append, IH, andb_true_r.
  destruct (isUriUnreserved c) eqn:Hu.
  - cbn [allChars]. unfold isEncoded. rewrite Hu. reflexivity.
  - pose proof (N_ascii_bounded c) as Hc.
    destruct (N.ltb_spec (N_of_ascii c) 128) as [Hlt|Hge].
    + apply percentByte_encoded. lia.
    + pose proof (N.mod_lt (N_of_ascii c) 64) as Hm.
      pose proof (N.Div0.div_lt_upper_bound (N_of_ascii c) 64 4) as Hd.
      rewrite allChars_append, !percentByte_encoded; [reflexivity|lia|lia].
Qed.

Lemma githubRequests_upstream (owner' repo' token branch : string) (request : Request) :
  In request (githubRequests owner' repo' token branch) ->
  UpstreamRequest owner' repo' token request.
Proof.
  intros [<-|[<-|[<-|[]]]].
  - apply RepoInfoRequest.
  - apply LanguagesRequest.
  - apply (TreeRequest owner' repo' token (encodeURIComponent branch)).
    apply encodeURIComponent_encoded.
Qed.

(** Every request the route sends is built from checked text only.  A GET
    goes to the hosting provider, for the owner and repository parsed from
    the submitted URL, both non-empty and made of letters, digits, dot,
    underscore and hyphen, and is one of the repository, languages and tree
    requests; the branch in the tree request is percent-encoded.  A POST
    goes to the generative service with the key percent-encoded.  So no
    submitted text, branch name or key can add a path segment or a query
    parameter. *)
Theorem upstream_urls_hold_checked_text_only (w : World) (body : JsVal)
    (env : ProcessEnv) (request : Request) :
  In request (snd (run w body env)) ->
  (exists url owner' repo' token,
     requestedUrl body = Returned (Some url) /\
     parseRepoUrl url = Some (owner', repo') /\
     isName owner' /\ isName repo' /\
     whenTruthy (GITHUB_TOKEN env) = Some token /\
     UpstreamRequest owner' repo' token request) \/
  (exists key meta,
     whenTruthy (GEMINI_API_KEY env) = Some key /\
     request = Post (geminiApi ++ encodeURIComponent key) geminiHeaders (geminiBody meta) /\
     allChars isEncoded (encodeURIComponent key) = true).
Proof.
  assert (Hgets : forall owner' repo' token branch,
             reachesFetch body env owner' repo' token ->
             In request (githubRequests owner' repo' token branch) ->
             exists url o r t,
               requestedUrl body = Returned (Some url) /\
               parseRepoUrl url = Some (o, r) /\ isName o /\ isName r /\
               whenTruthy (GITHUB_TOKEN env) = Some t /\ UpstreamRequest o r t request).
  { intros owner' repo' token branch (url & Hreq & _ & Hparse & Htoken) Hin.
    destruct (parseRepoUrl_sound _ _ _ Hparse) as (_ & _ & _ & _ & Ho & Hr & _).
    exists url, owner', repo', token. repeat split; try assumption; try apply Ho;
      try apply Hr.
    exact (githubRequests_upstream _ _ _ _ _ Hin). }
  assert (Hpost : forall meta,
             In request (narrativeTrace (GEMINI_API_KEY env) meta) ->
             exists key meta',
               whenTruthy (GEMINI_API_KEY env) = Some key /\
               request = Post (geminiApi ++ encodeURIComponent key) geminiHeaders
                           (geminiBody meta') /\
               allChars isEncoded (encodeURIComponent key) = true).
  { intros meta Hin. unfold narrativeTrace in Hin.
    destruct (whenTruthy (GEMINI_API_KEY env)) as [key|]; [|contradiction].
    destruct Hin as [<-|[]]. exists key, meta.
    split; [reflexivity|]. split; [reflexivity|apply encodeURIComponent_encoded]. }
  destruct (run_case w body env) as
    [ | | | | owner' repo' token e tr Hreach Hfetch
      | owner' repo' token meta tr e Hreach Hfetch _
      | owner' repo' token meta tr reply Hreach Hfetch _ ];
    cbn [snd]; try contradiction.
  - destruct (fetchRepoMetadata_trace _ _ _ _ _ _ _ Hfetch) as (branch & k & -> & _ & _).
    intros Hin. left. apply (Hgets owner' repo' token branch Hreach).
    exact (In_firstn _ _ _ Hin).
  - destruct (fetchRepoMetadata_success _ _ _ _ _ _ _ Hfetch)
      as (repoData & _ & _ & _ & _ & _ & _ & ->).
    intros Hin. apply in_app_or in Hin as [Hin|Hin].
    + left. exact (Hgets _ _ _ _ Hreach Hin).
    + right. exact (Hpost meta Hin).
  - destruct (fetchRepoMetadata_success _ _ _ _ _ _ _ Hfetch)
      as (repoData & _ & _ & _ & _ & _ & _ & ->).
    intros Hin. apply in_app_or in Hin as [Hin|Hin].
    + left. exact (Hgets _ _ _ _ Hreach Hin).
    + right. exact (Hpost meta Hin).
Qed.

(** ** The flags, and the description taken over from the metadata *)

Lemma narrated_sections (w : World) (geminiKey : option string) (meta : RepoMetadata)
    (errors0 : list ApiError) :
  fst (narrated w geminiKey meta errors0) = noSections \/
  exists key props,
    whenTruthy geminiKey = Some key /\
    generatorReplied w key meta props /\
    fst (narrated w geminiKey meta errors0)
    = {| gen_description := lookup "description" props;
         gen_features :=
           if isArray (lookup "features" props) then lookup "features" props
           else JUndefined;
         gen_usage := lookup "usage" props;
         gen_installation := lookup "installation" props |}.
Proof.
  unfold narrated. destruct (whenTruthy geminiKey) as [key|]; [|left; reflexivity].
  unfold sectionsOfAnswer.
  destruct (geminiAnswer w key meta) as [res|e] eqn:Hans; [|left; reflexivity].
  destruct (ok res) eqn:Hok; cbn [negb]; [|left; reflexivity].
  destruct (json res) as [data|e] eqn:Hjson; [|left; reflexivity].
  destruct (JSON_parse w (replyText data)) as [parsed|e] eqn:Hparse.
  2:{ unfold sectionsOfReply. rewrite Hparse. left. reflexivity. }
  destruct parsed as [ | | | | | |props];
    try (unfold sectionsOfReply; rewrite Hparse; left; reflexivity).
  right. exists key, props. split; [reflexivity|]. split.
  - exists res, data. repeat split; assumption.
  - rewrite (sectionsOfReply_object _ _ props Hparse). reflexivity.
Qed.

(** In a success payload the flags of features, usage and installation are
    set only when the generative service, called with the configured key,
    answered with a success whose text parses to an object that holds a
    truthy value under that key; the flag of the description is set only
    then, or when the repository's own description was taken over (it is
    non-empty and shorter than five characters once trimmed). *)
Theorem flags_record_where_content_came_from (w : World) (body : JsVal)
    (env : ProcessEnv) (payload : GenerateReadmeResponse) (st : N) (tr : Trace) :
  run w body env = (Returned {| reply_status := st; reply_body := Success payload |}, tr) ->
  let meta := metadata payload in
  let replied k :=
    exists key props,
      whenTruthy (GEMINI_API_KEY env) = Some key /\
      generatorReplied w key meta props /\
      truthy (lookup k props) = true in
  (filled_features (filledWithGemini payload) = true -> replied "features") /\
  (filled_usage (filledWithGemini payload) = true -> replied "usage") /\
  (filled_installation (filledWithGemini payload) = true -> replied "installation") /\
  (filled_description (filledWithGemini payload) = true ->
   replied "description" \/
   (needDescription meta = true /\ truthyString (description meta) = true)).
Proof.
  intros Hrun. pose proof (run_case w body env) as C. rewrite Hrun in C.
  inversion C as [ | | | | | | owner' repo' token meta' tr1 reply Hreach Hfetch Hasm ];
    subst; cbv zeta in *.
  destruct (assembleReply_success _ _ _ _ Hasm)
    as (p & Hp & Hmeta & _ & _ & Hfilled & _).
  inversion Hp; subst p; clear Hp. rewrite Hmeta, Hfilled.
  unfold markFilled, adoptDescription.
  destruct (narrated_sections w (GEMINI_API_KEY env) meta'
              (initialErrors (GEMINI_API_KEY env)))
    as [Hg | (key & props & Hkey & Hreplied & Hg)]; rewrite Hg.
  - cbn [gen_description noSections truthy negb andb].
    destruct (needDescription meta' && truthyString (description meta')) eqn:Hn;
      cbn [filled_features filled_usage filled_installation filled_description
           gen_description gen_features gen_usage gen_installation noSections truthy];
      repeat split; try discriminate.
    intros _. right. apply andb_prop in Hn. exact Hn.
  - cbn [gen_description].
    assert (Hrep : forall k, truthy (lookup k props) = true ->
              exists key0 props0,
                whenTruthy (GEMINI_API_KEY env) = Some key0 /\
                generatorReplied w key0 meta' props0 /\
                truthy (lookup k props0) = true)
      by (intros k Hk; exists key, props; repeat split; assumption).
    assert (Hfeat : truthy (if isArray (lookup "features" props)
                            then lookup "features" props else JUndefined) = true ->
              truthy (lookup "features" props) = true)
      by (destruct (isArray (lookup "features" props)); [auto|discriminate]).
    destruct (negb (truthy (lookup "description" props)) && needDescription meta'
              && truthyString (description meta')) eqn:Hn;
      cbn [filled_features filled_usage filled_installation filled_description
           gen_description gen_features gen_usage gen_installation];
      (split; [|split; [|split]]);
      try (intros H; apply Hrep; auto; fail).
    + intros _. right. apply andb_prop in Hn as [Hn Hd]. apply andb_prop in Hn as [_ Hn].
      split; assumption.
    + intros H. left. apply Hrep. exact H.
Qed.

(** Taking the description over from the metadata changes the document
    only when the generator's description is a falsy value other than
    [null] and [undefined] (the empty string, say): when it is absent or
    truthy, [buildReadme] gives the same result with and without that
    step. *)
Theorem adopted_description_leaves_the_document_alone
    (meta : RepoMetadata) (g : GeneratedSections) (filled filled' : FilledFlags) :
  isNullish (gen_description g) = true \/ truthy (gen_description g) = true ->
  buildReadme meta (adoptDescription meta g) filled = buildReadme meta g filled'.
Proof.
  intros H. unfold adoptDescription.
  destruct (negb (truthy (gen_description g)) && needDescription meta
            && truthyString (description meta)) eqn:Hc; [|reflexivity].
  apply andb_prop in Hc as [Hc Hdesc]. apply andb_prop in Hc as [Htruthy _].
  destruct H as [Hnull|Ht]; [|rewrite Ht in Htruthy; discriminate].
  destruct (description meta) as [d|] eqn:Hd; [|discriminate Hdesc].
  unfold buildReadme, readmeParts.
  cbn [gen_description gen_features gen_usage gen_installation ofOption].
  rewrite Hd. unfold nullish. rewrite Hnull. cbn [isNullish ofOption]. reflexivity.
Qed.

Lemma trim_nonempty_of_validateUrl (url : string) :
  validateUrl url = true -> Js.trim url <> EmptyString.
Proof.
  unfold validateUrl. intros H Hempty. rewrite Hempty in H. discriminate H.
Qed.

(** What the client lets through, the server does not refuse as input: for
    a URL accepted by [validateUrl] and submitted trimmed, as the page
    does, the route never answers with status 400. *)
Theorem client_checked_urls_pass_the_input_checks (w : World) (env : ProcessEnv)
    (url : string) (reply : HttpReply) (tr : Trace) :
  validateUrl url = true ->
  run w (requestFor (Js.trim url)) env = (Returned reply, tr) ->
  reply_status reply <> 400%N.
Proof.
  intros Hclient Hrun.
  assert (Hreq : requestedUrl (requestFor (Js.trim url)) = Returned (Some (Js.trim url))).
  { unfold requestedUrl, requestFor.
    cbn [optGet lookup String.eqb Ascii.eqb Bool.eqb isNullish callTrim andThen].
    rewrite trim_idempotent. reflexivity. }
  assert (Hparse : exists owner' repo',
             parseRepoUrl (Js.trim url) = Some (owner', repo')).
  { unfold validateUrl in Hclient. unfold parseRepoUrl.
    destruct (stripPrefixCI _ (Js.trim url)) as [afterHost|]; [|discriminate].
    destruct (spanName afterHost) as [[|a m1] [|c afterSlash]]; try discriminate.
    destruct (Ascii.eqb c "/"); [|discriminate].
    destruct (spanName afterSlash) as [[|b m2] rest2]; [discriminate|].
    rewrite (matchesClientTail_matchesTail _ Hclient). do 2 eexists. reflexivity. }
  destruct Hparse as (owner' & repo' & Hparse).
  pose proof (trim_nonempty_of_validateUrl url Hclient) as Hne.
  pose proof (run_case w (requestFor (Js.trim url)) env) as C. rewrite Hrun in C.
  inversion C; subst; cbv zeta in *; cbn [reply_status fail internalError];
    try discriminate;
    repeat match goal with
           | H : requestedUrl _ = _ |- _ => rewrite Hreq in H; inversion H; subst; clear H
           end.
  - match goal with H : whenTruthy _ = None |- _ =>
      rewrite (whenTruthy_Some _ Hne) in H; discriminate H end.
  - congruence.
  - match goal with H : assembleReply _ _ _ = Returned reply |- _ =>
      destruct (assembleReply_success _ _ _ _ H) as (p & -> & _) end.
    discriminate.
Qed.

Lemma upstream_urls_hold_checked_text_only_witness :
  (exists url owner' repo' token,
     requestedUrl widgetRequest = Returned (Some url) /\
     parseRepoUrl url = Some (owner', repo') /\
     isName owner' /\ isName repo' /\
     whenTruthy (GITHUB_TOKEN fullEnv) = Some token /\
     UpstreamRequest owner' repo' token
       (Get (repoInfoUrl "acme" "widget") (githubHeaders "ghp_token"))) \/
  (exists key meta,
     whenTruthy (GEMINI_API_KEY fullEnv) = Some key /\
     Get (repoInfoUrl "acme" "widget") (githubHeaders "ghp_token")
     = Post (geminiApi ++ encodeURIComponent key) geminiHeaders (geminiBody meta) /\
     allChars isEncoded (encodeURIComponent key) = true).
Proof.
  refine (upstream_urls_hold_checked_text_only notFoundWorld widgetRequest fullEnv
            (Get (repoInfoUrl "acme" "widget") (githubHeaders "ghp_token")) _).
  left. reflexivity.
Defined.

Lemma flags_record_where_content_came_from_witness :
  (exists key props,
     whenTruthy (GEMINI_API_KEY noGeminiEnv) = Some key /\
     generatorReplied silentGeminiWorld key (metadata adoptedPayload) props /\
     truthy (lookup "description" props) = true) \/
  (needDescription (metadata adoptedPayload) = true /\
   truthyString (description (metadata adoptedPayload)) = true).
Proof.
  exact (proj2 (proj2 (proj2
           (flags_record_where_content_came_from silentGeminiWorld widgetRequest
              noGeminiEnv adoptedPayload 200%N githubTrace eq_refl))) eq_refl).
Defined.

Lemma adopted_description_leaves_the_document_alone_witness :
  buildReadme shortMeta (adoptDescription shortMeta noSections) noFlags
  = buildReadme shortMeta noSections noFlags.
Proof.
  refine (adopted_description_leaves_the_document_alone shortMeta noSections
            noFlags noFlags _).
  left. reflexivity.
Defined.

Lemma client_checked_urls_pass_the_input_checks_witness :
  reply_status
    (fail 502 "GitHub API error: HTTP 404 Not Found: Not Found" "GITHUB_API_ERROR")
  <> 400%N.
Proof.
  exact (client_checked_urls_pass_the_input_checks notFoundWorld fullEnv
           " https://github.com/acme/widget/ "
           (fail 502 "GitHub API error: HTTP 404 Not Found: Not Found" "GITHUB_API_ERROR")
           [Get (repoInfoUrl "acme" "widget") (githubHeaders "ghp_token")]
           eq_refl eq_refl).
Defined.

(** A narrative whose features hold a number has no typed reading, and
    [buildReadme] throws on it; one with only a usage text has one. *)
Example shape_of_sample_narratives :
  typedOf {| gen_description := JUndefined;
             gen_features := JArr [JStr "fast"; JNum 42%float];
             gen_usage := JUndefined; gen_installation := JUndefined |} = None /\
  typedOf {| gen_description := JNull; gen_features := JUndefined;
             gen_usage := JStr "run it"; gen_installation := JUndefined |}
  = Some {| t_description := None; t_features := None; t_usage := Some "run it";
            t_installation := None |}.
Proof. split; reflexivity. Qed.
